(** * Classification, normalisation and routing of recognised text

  A shallow embedding of the decision logic of the repository:
  - [determine_problem_type] and [_is_cjk]   (the main script),
  - the preprocessing of [solve_equation]     (math_solver.py),
  - the routing part of [answer_text_question] (nlp_solver.py),
  - the configuration guard of [solve_text_problem_with_gemini]
    (ocr_module.py),
  - the choice of the image format, the reading of a reply and the
    handlers of [extract_text_from_image] and
    [solve_text_problem_with_gemini]           (ocr_module.py),
  - one round of the loop of [main]            (the main script),
  - the local analysis of [answer_text_question] (nlp_solver.py).

  A Python [str] is a sequence of Unicode code points; it is modelled as a
  list of code points ([N]).  String literals of the sources are written
  as UTF-8 literals and decoded by [py]. *)

From Stdlib Require Import List NArith ZArith QArith Bool Lia String Ascii.
Import ListNotations.

Set Implicit Arguments.

(** ** Code points and strings *)

Definition char := N.
Definition str := list char.

Module Utf8.

Local Open Scope N_scope.

(** Payload of a continuation byte. *)
Definition cont (b : N) : N := N.land b 63.

(** Decoder for well-formed UTF-8; it is applied to the literals of this
    file only.  A truncated sequence ends the decoding. *)
Fixpoint decode (bs : list N) : str :=
  match bs with
  | [] => []
  | b0 :: r0 =>
      if b0 <? 128 then b0 :: decode r0
      else if b0 <? 224 then
        match r0 with
        | b1 :: r1 => N.lor (N.shiftl (N.land b0 31) 6) (cont b1) :: decode r1
        | _ => []
        end
      else if b0 <? 240 then
        match r0 with
        | b1 :: b2 :: r2 =>
            N.lor (N.shiftl (N.land b0 15) 12)
              (N.lor (N.shiftl (cont b1) 6) (cont b2)) :: decode r2
        | _ => []
        end
      else
        match r0 with
        | b1 :: b2 :: b3 :: r3 =>
            N.lor (N.shiftl (N.land b0 7) 18)
              (N.lor (N.shiftl (cont b1) 12)
                 (N.lor (N.shiftl (cont b2) 6) (cont b3))) :: decode r3
        | _ => []
        end
  end.

End Utf8.

(** [py "..."] is the Python string written by the literal. *)
Definition py (s : string) : str :=
  Utf8.decode (map N_of_ascii (list_ascii_of_string s)).

(** The line feed, written [\n] in the sources. *)
Definition LF : char := 10%N.

Module PyStr.

Local Open Scope N_scope.

(** *** Character classes fixed by the language

    [str.isspace], [str.split()] and [str.strip()] share one set of
    white-space code points (CPython's [_PyUnicode_IsWhitespace]). *)
Definition char_isspace (c : char) : bool :=
  ((9 <=? c) && (c <=? 13)) || ((28 <=? c) && (c <=? 32))
  || (c =? 133) || (c =? 160) || (c =? 5760)
  || ((8192 <=? c) && (c <=? 8202))
  || (c =? 8232) || (c =? 8233) || (c =? 8239) || (c =? 8287)
  || (c =? 12288).

(** *** Character tables

    [str.isdigit], [str.isalpha] and [str.lower] read the Unicode
    database of the interpreter.  Its Latin-1 part (code points below 256)
    is written out; the rest of the database is a parameter
    ([UnicodeData]) of everything that reads it. *)

Definition is_latin1 (c : char) : bool := c <? 256.

Definition ascii_isdigit (c : char) : bool := (48 <=? c) && (c <=? 57).

Definition ascii_isupper (c : char) : bool := (65 <=? c) && (c <=? 90).

Definition ascii_islower (c : char) : bool := (97 <=? c) && (c <=? 122).

(** Digits of Latin-1: 0-9 and the superscripts two, three and one. *)
Definition latin1_isdigit (c : char) : bool :=
  ascii_isdigit c || (c =? 178) || (c =? 179) || (c =? 185).

(** Letters of Latin-1: A-Z, a-z, the ordinal indicators, the micro sign,
    and U+00C0-U+00FF without the multiplication and division signs. *)
Definition latin1_isalpha (c : char) : bool :=
  ascii_isupper c || ascii_islower c
  || (c =? 170) || (c =? 181) || (c =? 186)
  || ((192 <=? c) && (c <=? 214)) || ((216 <=? c) && (c <=? 246))
  || ((248 <=? c) && (c <=? 255)).

(** Upper-case letters of Latin-1; each has its lower case 32 places up. *)
Definition latin1_isupper (c : char) : bool :=
  ascii_isupper c || ((192 <=? c) && (c <=? 214)) || ((216 <=? c) && (c <=? 222)).

Definition latin1_lower (c : char) : char :=
  if latin1_isupper c then c + 32 else c.

(** The database outside Latin-1.  [lower_ext before c after] is what
    [str.lower] writes for the character [c] standing between [before] and
    [after]: one to three characters, chosen by context for the capital
    sigma. [isdecimal_ext] is the category Nd, which [\d] of a regular
    expression matches. *)
Record UnicodeData : Type := {
  isdigit_ext : char -> bool;
  isalpha_ext : char -> bool;
  isdecimal_ext : char -> bool;
  lower_ext : str -> char -> str -> str
}.

(** The database with nothing cased, no digit and no letter outside
    Latin-1. *)
Definition latin1_only : UnicodeData := {|
  isdigit_ext := fun _ => false;
  isalpha_ext := fun _ => false;
  isdecimal_ext := fun _ => false;
  lower_ext := fun _ c _ => [c]
|}.

(** *** A small database for examples

    The full-width digits (U+FF10 to U+FF19) as decimal digits, and the
    cased letters dotted capital I (U+0130), whose lower case is two
    characters long, capital sigma (U+03A3), final sigma (U+03C2) and
    small sigma (U+03C3).  The capital sigma is lower-cased by the rule
    of the interpreter (Final_Sigma): to the final sigma when the nearest
    character before it that is not case-ignorable is cased and the
    nearest such character after it, if any, is not; to the small sigma
    otherwise.  The cased and the case-ignorable characters are those of
    Latin-1, the four letters above, and the combining dot (U+0307),
    which is case-ignorable. *)

Definition is_fullwidth_digit (c : char) : bool :=
  (65296 <=? c) && (c <=? 65305).

(** Cased characters of Latin-1: its letters. *)
Definition latin1_cased (c : char) : bool := latin1_isalpha c.

(** Case-ignorable characters of Latin-1: the apostrophe, the full
    stop, the colon, the circumflex, the grave accent, the diaeresis, the
    soft hyphen, the macron, the acute accent, the middle dot and the
    cedilla. *)
Definition latin1_case_ignorable (c : char) : bool :=
  existsb (N.eqb c) [39; 46; 58; 94; 96; 168; 173; 175; 180; 183; 184].

Definition sample_cased (c : char) : bool :=
  if is_latin1 c then latin1_cased c
  else (c =? 304) || (c =? 931) || (c =? 962) || (c =? 963).

Definition sample_case_ignorable (c : char) : bool :=
  if is_latin1 c then latin1_case_ignorable c else c =? 775.

(** The first character of [s] that is not case-ignorable is cased. *)
Fixpoint cased_ahead (s : str) : bool :=
  match s with
  | [] => false
  | c :: s' =>
      if sample_case_ignorable c then cased_ahead s' else sample_cased c
  end.

(** The capital sigma between [before] and [after] is a final one. *)
Definition final_sigma (before after : str) : bool :=
  cased_ahead (rev before) && negb (cased_ahead after).

Definition sample_ucd : UnicodeData := {|
  isdigit_ext := is_fullwidth_digit;
  isalpha_ext := fun c => (c =? 304) || (c =? 931) || (c =? 962) || (c =? 963);
  isdecimal_ext := is_fullwidth_digit;
  lower_ext := fun before c after =>
    if c =? 304 then [105; 775]
    else if c =? 931 then
      (if final_sigma before after then [962] else [963])
    else [c]
|}.

Section WithUnicode.

Variable ucd : UnicodeData.

(** [c.isdigit()] *)
Definition char_isdigit (c : char) : bool :=
  if is_latin1 c then latin1_isdigit c else isdigit_ext ucd c.

(** [c.isalpha()] *)
Definition char_isalpha (c : char) : bool :=
  if is_latin1 c then latin1_isalpha c else isalpha_ext ucd c.

(** [c.isdecimal()] *)
Definition char_isdecimal (c : char) : bool :=
  if is_latin1 c then ascii_isdigit c else isdecimal_ext ucd c.

Definition lower_char (before : str) (c : char) (after : str) : str :=
  if is_latin1 c then [latin1_lower c] else lower_ext ucd before c after.

Fixpoint lower_from (before s : str) : str :=
  match s with
  | [] => []
  | c :: after => lower_char before c after ++ lower_from (before ++ [c]) after
  end.

(** [s.lower()] *)
Definition lower (s : str) : str := lower_from [] s.

End WithUnicode.

(** *** Comparison, prefixes, substrings *)

Fixpoint eqb (s t : str) : bool :=
  match s, t with
  | [], [] => true
  | c :: s', d :: t' => (c =? d) && eqb s' t'
  | _, _ => false
  end.

(** [s.startswith(prefix)] *)
Fixpoint startswith (s prefix : str) {struct prefix} : bool :=
  match prefix, s with
  | [], _ => true
  | p :: prefix', c :: s' => (c =? p) && startswith s' prefix'
  | _ :: _, [] => false
  end.

(** [s.endswith(suffix)] *)
Definition endswith (s suffix : str) : bool :=
  startswith (rev s) (rev suffix).

(** [sub in s] for two strings: [sub] occurs in [s] as a substring. *)
Fixpoint contains (s sub : str) : bool :=
  startswith s sub ||
  match s with
  | [] => false
  | _ :: s' => contains s' sub
  end.

(** [x in l] for a list or a set of strings. *)
Definition mem (x : str) (l : list str) : bool := existsb (eqb x) l.

(** [c in chars] for a character and a set of characters. *)
Definition char_mem (c : char) (chars : str) : bool := existsb (N.eqb c) chars.

(** Iterating over a string yields its characters as one-character
    strings. *)
Definition chars_of (s : str) : list str := map (fun c => [c]) s.

(** Truth value of a string: non-empty. *)
Definition truthy (s : str) : bool :=
  match s with [] => false | _ :: _ => true end.

(** [s.isspace()]: at least one character, all of them white space. *)
Definition isspace (s : str) : bool := truthy s && forallb char_isspace s.

(** *** Replacement, splitting, stripping *)

(** [s.replace(old, new)] for a one-character [old], the only form the
    sources use: every occurrence of the character is replaced. *)
Definition replace (old : char) (new : str) (s : str) : str :=
  flat_map (fun c => if c =? old then new else [c]) s.

(** [s.split()] with no argument: the maximal runs of characters that
    are not white space, in order.  [cur] is the run being read. *)
Fixpoint split_from (cur : str) (s : str) : list str :=
  match s with
  | [] => match cur with [] => [] | _ => [cur] end
  | c :: s' =>
      if char_isspace c then
        match cur with
        | [] => split_from [] s'
        | _ => cur :: split_from [] s'
        end
      else split_from (cur ++ [c]) s'
  end.

Definition split (s : str) : list str := split_from [] s.

(** [sep.join(parts)] for the empty separator. *)
Definition join_empty (parts : list str) : str := List.concat parts.

Fixpoint lstrip (s : str) : str :=
  match s with
  | [] => []
  | c :: s' => if char_isspace c then lstrip s' else s
  end.

Definition rstrip (s : str) : str := rev (lstrip (rev s)).

(** [s.strip()] *)
Definition strip (s : str) : str := rstrip (lstrip s).

End PyStr.

(** ** The preprocessing of [solve_equation] (math_solver.py, lines 19-25) *)

Module MathSolver.

Import PyStr.

(** Lines 19-20: implied multiplication. *)
Definition insert_multiplication (equation_str : str) : str :=
  replace (N_of_ascii "X") (py "*X")
    (replace (N_of_ascii "x") (py "*x") equation_str).

(** Line 21: [equation_str.replace('=', '-(') + ')']. *)
Definition equality_to_zero (equation_str : str) : str :=
  replace (N_of_ascii "=") (py "-(") equation_str ++ py ")".

(** Line 22: the power operator. *)
Definition caret_to_power (equation_str : str) : str :=
  replace (N_of_ascii "^") (py "**") equation_str.

(** Line 25: [''.join(equation_str.split())]. *)
Definition remove_whitespace (equation_str : str) : str :=
  join_empty (split equation_str).

(** The string handed to [sympify] on line 36. *)
Definition normalize (equation_str : str) : str :=
  let equation_str := insert_multiplication equation_str in
  let equation_str := equality_to_zero equation_str in
  let equation_str := caret_to_power equation_str in
  remove_whitespace equation_str.

(** The three transforms that do not look at the equality sign, in the
    order of the source. *)
Definition normalize_side (side : str) : str :=
  remove_whitespace (caret_to_power (insert_multiplication side)).

(** The normal form as the specification words it: explicit
    multiplication, then [LHS = RHS] rewritten as [(LHS) - (RHS)] when an
    equality sign is present, then the power operator, then all white
    space removed. *)
Fixpoint split_at_equals (s : str) : str * option str :=
  match s with
  | [] => ([], None)
  | c :: s' =>
      if N.eqb c (N_of_ascii "=") then ([], Some s')
      else let '(l, r) := split_at_equals s' in (c :: l, r)
  end.

Definition equality_to_zero_spec (s : str) : str :=
  match split_at_equals s with
  | (lhs, Some rhs) => py "(" ++ lhs ++ py ") - (" ++ rhs ++ py ")"
  | (_, None) => s
  end.

Definition normalize_spec (raw : str) : str :=
  remove_whitespace
    (caret_to_power (equality_to_zero_spec (insert_multiplication raw))).

End MathSolver.


(** ** Results of calls that may raise *)

Module Py.

(** What the embedded code raises: the division of two counts by zero,
    the first token of a document without tokens (nlp_solver.py, line
    88), and the refusal of a text by the pipeline (line 79), which takes
    no text over its length limit. *)
Inductive Exn : Type :=
| ZeroDivisionError
| IndexError
| ValueError.

Inductive Result (A : Type) : Type :=
| Returns (a : A)
| Raises (e : Exn).

Arguments Returns {A} a.
Arguments Raises {A} e.

Definition bind {A B : Type} (r : Result A) (k : A -> Result B) : Result B :=
  match r with
  | Returns a => k a
  | Raises e => Raises e
  end.

(** [a / b] on two counts: true division, which raises on a zero
    divisor.  The quotient is kept exact: the sources divide and scale
    counts of characters and compare the result with a count or with 0.5,
    and for counts below 2^53 the comparison of the rounded doubles has
    the outcome of the exact one. *)
Definition truediv (a b : nat) : Result Q :=
  match b with
  | O => Raises ZeroDivisionError
  | S _ => Returns (Z.of_nat a # Pos.of_nat b)
  end.

(** [x > y] on exact numbers. *)
Definition gt (x y : Q) : bool := negb (Qle_bool x y).

Definition of_count (n : nat) : Q := inject_Z (Z.of_nat n).

End Py.

Notation "x <- r ;; k" := (Py.bind r (fun x => k))
  (at level 61, r at next level, right associativity).

(** ** The classifier (main script, lines 15-163) *)

Module Classifier.

Import PyStr Py.

Local Open Scope N_scope.

Inductive ProblemType : Type := Math | Text | Visual.

(** Lines 15-22. *)
Definition _is_cjk (char : char) : bool :=
  ((0x4e00 <=? char) && (char <=? 0x9fff))
  || ((0x3400 <=? char) && (char <=? 0x4dbf))
  || ((0xac00 <=? char) && (char <=? 0xd7af))
  || ((0x3040 <=? char) && (char <=? 0x309f))
  || ((0x30a0 <=? char) && (char <=? 0x30ff)).

(** Lines 31-37: one turn of the counting loop on the pair
    [(cjk_char_count, total_non_whitespace_chars)]. *)
Definition count_step (counts : nat * nat) (char_val : char) : nat * nat :=
  let '(cjk_char_count, total_non_whitespace_chars) := counts in
  if negb (char_isspace char_val) then
    (if _is_cjk char_val then S cjk_char_count else cjk_char_count,
     S total_non_whitespace_chars)
  else counts.

Definition count_chars (ocr_text : str) : nat * nat :=
  fold_left count_step ocr_text (O, O).

Definition cjk_char_count (ocr_text : str) : nat := fst (count_chars ocr_text).

Definition total_non_whitespace_chars (ocr_text : str) : nat :=
  snd (count_chars ocr_text).

(** Lines 41-44: the guarded division and the test of the ratio. *)
Definition cjk_dominant (ocr_text : str) : Result bool :=
  if (5 <? total_non_whitespace_chars ocr_text)%nat then
    cjk_ratio <- truediv (cjk_char_count ocr_text)
                   (total_non_whitespace_chars ocr_text) ;;
    Returns (gt cjk_ratio (1 # 2))
  else Returns false.

(** Line 52. *)
Definition very_bad_chars : list str := [py "°"; py "@"; py ":"; py "$"].

(** [any(char in lower_ocr_text for char in very_bad_chars)] *)
Definition has_very_bad_chars (lower_ocr_text : str) : bool :=
  existsb (fun char => contains lower_ocr_text char) very_bad_chars.

(** Lines 68-72 and 84-88. *)
Definition question_starters : list str :=
  map py
    ["what"; "who"; "where"; "when"; "why"; "how"; "is"; "are"; "do";
     "does"; "did"; "was"; "were"; "can"; "could"; "will"; "would";
     "should"; "may"; "might"; "which"; "list"; "define"; "explain";
     "describe"; "calculate"; "name"; "tell"]%string.

(** Lines 91-95 (and line 61). *)
Definition ends_with_question_variant (lower_ocr_text : str) : bool :=
  if endswith lower_ocr_text (py "?") then true
  else if endswith lower_ocr_text (py "?)") then true
  else false.

(** Lines 66-67 and 80-81: the first word, or the empty string. *)
Definition first_word_of (lower_ocr_text : str) : str :=
  match split lower_ocr_text with
  | [] => []
  | word :: _ => word
  end.

(** Lines 60-74. *)
Definition is_question_like_despite_bad_chars (lower_ocr_text : str) : bool :=
  if ends_with_question_variant lower_ocr_text then true
  else mem (first_word_of lower_ocr_text) question_starters.

(** Lines 97-98. *)
Definition is_definitely_question (lower_ocr_text : str) : bool :=
  let first_word := first_word_of lower_ocr_text in
  ends_with_question_variant lower_ocr_text
  || (mem first_word question_starters
      && negb (eqb first_word (py "solve") && contains lower_ocr_text (py "="))).

(** Line 105. *)
Definition has_equals_sign (ocr_text : str) : bool := contains ocr_text (py "=").

(** Line 106 (and lines 127, 137). *)
Definition has_math_operators (ocr_text : str) : bool :=
  existsb (fun op => contains ocr_text op) (chars_of (py "+-*/^")).

(** Line 110. *)
Definition explicit_math_phrases : list str :=
  map py
    ["solve for"; "find x"; "find the value of x"; "derivative of";
     "integral of"; "factorize"; "simplify:"]%string.

(** Line 129. *)
Definition valid_arithmetic_chars : str := py "0123456789+-*/^(). ".

Definition count_if (f : char -> bool) (s : str) : nat :=
  List.length (filter f s).

Section WithUnicode.

Variable ucd : UnicodeData.

(** Line 107. *)
Definition has_digits (ocr_text : str) : bool :=
  existsb (char_isdigit ucd) ocr_text.

(** [any(c.isalpha() for c in ocr_text)], lines 117 and 156. *)
Definition has_alpha (ocr_text : str) : bool :=
  existsb (char_isalpha ucd) ocr_text.

(** Lines 111-113. *)
Definition explicit_phrase_rule (lower_ocr_text : str) : bool :=
  existsb (fun phrase => contains lower_ocr_text phrase) explicit_math_phrases
  && negb (has_very_bad_chars lower_ocr_text).

(** Line 118. *)
Definition num_math_symbols (ocr_text : str) : nat :=
  count_if (fun char => char_isdigit ucd char || contains (py "+-*/=^().") [char])
    ocr_text.

(** Lines 119 and 142. *)
Definition num_alpha_symbols (ocr_text : str) : nat :=
  count_if (char_isalpha ucd) ocr_text.

(** Lines 116-123. *)
Definition structural_math_rule (ocr_text lower_ocr_text : str) : bool :=
  let first_word := first_word_of lower_ocr_text in
  ((has_equals_sign ocr_text && has_math_operators ocr_text)
   || (eqb first_word (py "solve") && has_math_operators ocr_text
       && (has_digits ocr_text || has_alpha ocr_text)))
  && (gt (of_count (num_math_symbols ocr_text))
         (of_count (num_alpha_symbols ocr_text) * (3 # 10))
      || (num_alpha_symbols ocr_text <? 10)%nat
      || eqb first_word (py "solve"))
  && negb (has_very_bad_chars lower_ocr_text).

(** Lines 126-133. *)
Definition is_pure_arithmetic (ocr_text : str) : bool :=
  if has_digits ocr_text && has_math_operators ocr_text then
    forallb (fun char_token => char_mem char_token valid_arithmetic_chars)
      ocr_text
  else false.

(** Lines 135-139. *)
Definition pure_arithmetic_rule (ocr_text lower_ocr_text : str) : bool :=
  is_pure_arithmetic ocr_text
  && (0 <? List.length (strip ocr_text))%nat
  && has_math_operators ocr_text
  && negb (has_very_bad_chars lower_ocr_text).

(** Lines 142-143. *)
Definition alphabetic_dominance (ocr_text : str) : bool :=
  gt (of_count (num_alpha_symbols ocr_text))
     (of_count (List.length ocr_text) * (1 # 2))
  && (10 <? List.length ocr_text)%nat.

(** Lines 150-151 and 158-159: the last try for math. *)
Definition math_recheck (ocr_text lower_ocr_text : str) : bool :=
  has_math_operators ocr_text && has_digits ocr_text
  && negb (has_very_bad_chars lower_ocr_text).

(** Lines 80-163: the cascade once the forbidden symbols are ruled out. *)
Definition classify_clean (ocr_text lower_ocr_text : str) : ProblemType :=
  if is_definitely_question lower_ocr_text then Text
  else if explicit_phrase_rule lower_ocr_text then Math
  else if structural_math_rule ocr_text lower_ocr_text then Math
  else if pure_arithmetic_rule ocr_text lower_ocr_text then Math
  else if alphabetic_dominance ocr_text then Text
  else if (List.length (strip ocr_text) <? 15)%nat then
    (if math_recheck ocr_text lower_ocr_text then Math else Visual)
  else if has_digits ocr_text || has_alpha ocr_text then
    (if math_recheck ocr_text lower_ocr_text then Math else Text)
  else Visual.

(** Lines 24-163.  The image is not looked at. *)
Definition determine_problem_type {Image : Type}
    (ocr_text : str) (image_obj : Image) : Result ProblemType :=
  if negb (truthy ocr_text) || isspace ocr_text then Returns Visual
  else
    dominant <- cjk_dominant ocr_text ;;
    if dominant then Returns Text
    else
      let lower_ocr_text := lower ucd ocr_text in
      if has_very_bad_chars lower_ocr_text then
        (if is_question_like_despite_bad_chars lower_ocr_text
         then Returns Text else Returns Visual)
      else Returns (classify_clean ocr_text lower_ocr_text).

End WithUnicode.

End Classifier.

(** ** The remote backend's guard (ocr_module.py, lines 122-200) *)

Module OcrModule.

Import PyStr.

(** Lines 132-133. *)
Definition key_not_set_message : str :=
  py "錯誤：Gemini API 金鑰未設定或仍為預設值。請在 ocr_module.py 中設定有效的 API_KEY。".

(** [solve_text_problem_with_gemini].  [exchange] stands for lines
    135-200: the request, the reading of the response and the handlers
    that turn every exception into a message; it always yields a string. *)
Definition solve_text_problem_with_gemini
    (API_KEY : str) (exchange : str -> str) (problem_text : str) : str :=
  if negb (truthy API_KEY)
     || eqb API_KEY (py "YOUR_GEMINI_API_KEY")
     || eqb API_KEY (py "GEMINI_API_KEY")
  then key_not_set_message
  else exchange problem_text.

End OcrModule.

(** ** The routing of [answer_text_question] (nlp_solver.py, lines 18-77) *)

Module NlpSolver.

Import PyStr Py.

(** What the function does that a caller can observe besides its result. *)
Inductive Event : Type :=
| Printed (message : str)
| GeminiCalled (problem_text : str)
| NlpCalled (text : str).

(** A computation with its trace of events. *)
Definition IO (A : Type) : Type := (list Event * A)%type.

Definition ret {A : Type} (a : A) : IO A := ([], a).

Definition io_bind {A B : Type} (m : IO A) (k : A -> IO B) : IO B :=
  let '(t1, a) := m in
  let '(t2, b) := k a in
  (t1 ++ t2, b).

Definition print (message : str) : IO unit := ([Printed message], tt).

Notation "x <~ m ;; k" := (io_bind m (fun x => k))
  (at level 61, m at next level, right associativity).

Definition trace {A : Type} (m : IO A) : list Event := fst m.

Definition result {A : Type} (m : IO A) : A := snd m.

(** The module globals the function reads, and the two collaborators.
    [NLP] is [None] when the model failed to load; a loaded model comes
    with the analysis of lines 79-166, which may raise (the pipeline
    refuses a text over its length limit on line 79, and the first token
    of an empty document is read on line 88). *)
Record Env : Type := {
  NLP : option (str -> Result str);
  API_KEY : str;
  exchange : str -> str
}.

Definition is_none {A : Type} (o : option A) : bool :=
  match o with None => true | Some _ => false end.

(** Line 29. *)
Definition nothing_available_message : str :=
  py "錯誤：spaCy NLP 模型未成功載入，且 Gemini API 金鑰未設定。無法處理文字問題。".

(** Line 65. *)
Definition trying_gemini_message : str :=
  py "資訊：偵測到可能複雜的文字問題，嘗試使用 Gemini API 進行解答...".

(** Line 68. *)
Definition error_marker : str := py "錯誤：".

(** Line 69. *)
Definition gemini_solution (gemini_answer : str) : str :=
  py "(Gemini AI 解答):" ++ [LF] ++ gemini_answer.

(** Line 71. *)
Definition gemini_failed_message (gemini_answer : str) : str :=
  py "警告：Gemini API 處理失敗 (" ++ gemini_answer
  ++ py ")。將嘗試使用本地 NLP 分析。".

(** Line 77. *)
Definition nlp_not_loaded_message : str :=
  py "錯誤：spaCy NLP 模型未成功載入。Gemini API 嘗試失敗或未啟用。".

Section WithEnv.

Variable ucd : UnicodeData.
Variable env : Env.

(** Line 37. *)
Definition contains_digits (text : str) : bool :=
  existsb (char_isdigit ucd) text.

(** Line 38. *)
Definition is_long_question (text : str) : bool :=
  (50 <? List.length text)%nat.

(** Lines 41-49: the loop stops at the first character in one of the five
    ranges, which are those of [_is_cjk]. *)
Definition contains_cjk (text : str) : bool :=
  existsb Classifier._is_cjk text.

(** Line 55. *)
Definition key_is_usable : bool :=
  truthy (API_KEY env)
  && negb (mem (API_KEY env) [py "YOUR_GEMINI_API_KEY"; py "GEMINI_API_KEY"]).

(** Lines 54-61. *)
Definition should_use_gemini (text : str) : bool :=
  if key_is_usable then
    if contains_cjk text then true
    else if contains_digits text && is_long_question text then true
    else if (7 <? List.length (split text))%nat then true
    else false
  else false.

(** Line 66. *)
Definition call_gemini (text : str) : IO str :=
  ([GeminiCalled text],
   OcrModule.solve_text_problem_with_gemini (API_KEY env) (exchange env) text).

(** Lines 76-166: the local analysis, or the message of line 77. *)
Definition local_analysis (text : str) : IO (Result str) :=
  match NLP env with
  | None => ret (Returns nlp_not_loaded_message)
  | Some analyse => ([NlpCalled text], analyse text)
  end.

(** Lines 18-166. *)
Definition answer_text_question (text : str) : IO (Result str) :=
  if is_none (NLP env) && negb (truthy (API_KEY env)) then
    ret (Returns nothing_available_message)
  else if should_use_gemini text then
    _ <~ print trying_gemini_message ;;
    gemini_answer <~ call_gemini text ;;
    if negb (startswith gemini_answer error_marker) then
      ret (Returns (gemini_solution gemini_answer))
    else
      _ <~ print (gemini_failed_message gemini_answer) ;;
      local_analysis text
  else local_analysis text.

(** The remote backend was called. *)
Definition remote_attempted (events : list Event) : bool :=
  existsb (fun e => match e with GeminiCalled _ => true | _ => false end)
    events.

(** The remote backend was called, and the local model was not called
    before it: of the calls among the events, the first is the one to
    the backend. *)
Fixpoint remote_attempted_first (events : list Event) : bool :=
  match events with
  | [] => false
  | Printed _ :: events' => remote_attempted_first events'
  | GeminiCalled _ :: _ => true
  | NlpCalled _ :: _ => false
  end.

End WithEnv.

(** *** Environments for examples *)

(** An environment with a usable key, a loaded model that answers with
    the empty string, and a backend that answers [ok]. *)
Definition env_ready : Env := {|
  NLP := Some (fun _ => Returns []);
  API_KEY := py "a-real-key";
  exchange := fun _ => py "ok"
|}.

(** An environment with a usable key, no model, and a backend that
    times out (ocr_module.py, line 189). *)
Definition env_timeout : Env := {|
  NLP := None;
  API_KEY := py "a-real-key";
  exchange := fun _ => py "錯誤：呼叫 Gemini API (solve_text_problem) 時發生超時。"
|}.

(** An environment whose key is still the placeholder. *)
Definition env_placeholder : Env := {|
  NLP := Some (fun _ => Returns []);
  API_KEY := py "YOUR_GEMINI_API_KEY";
  exchange := fun _ => py "ok"
|}.

End NlpSolver.

(** ** The properties under test, as the specification words them *)

Module Spec.

Import PyStr Py Classifier.

Local Open Scope N_scope.

(** The ratio of the script detector as the specification defines it:
    the share of CJK characters among the characters that are not white
    space, and 0 when there is none.  The source has no such function: it
    takes the quotient inline, under a guard (see [cjk_dominant]). *)
Definition cjk_ratio (text : str) : Q :=
  match total_non_whitespace_chars text with
  | O => 0
  | S _ =>
      Z.of_nat (cjk_char_count text)
      # Pos.of_nat (total_non_whitespace_chars text)
  end.

(** Empty or white space only: rule 1 of the cascade. *)
Definition is_blank (text : str) : bool := negb (truthy text) || isspace text.

(** The symbols whose presence and position the classifier tests on the
    lower-cased text: the four forbidden symbols, the question mark and the
    closing parenthesis. *)
Definition tested_symbols : str := py "°@:$?)".

(** Lower-casing a character outside Latin-1 writes at least one
    character and none of the tested symbols. *)
Definition lower_keeps_symbols (ucd : UnicodeData) : Prop :=
  forall before c after,
    is_latin1 c = false ->
    lower_ext ucd before c after <> [] /\
    forall d, In d (lower_ext ucd before c after) ->
              char_mem d tested_symbols = false.

(** The decimal digits outside Latin-1 are digits, are no letters, no
    white space and no CJK characters, and have no case. *)
Definition decimals_are_plain (ucd : UnicodeData) : Prop :=
  forall c,
    is_latin1 c = false -> isdecimal_ext ucd c = true ->
    isdigit_ext ucd c = true /\ isalpha_ext ucd c = false /\
    char_isspace c = false /\ _is_cjk c = false /\
    forall before after, lower_ext ucd before c after = [c].

(** The white space outside Latin-1 has no letter and no case. *)
Definition spaces_are_plain (ucd : UnicodeData) : Prop :=
  forall c,
    is_latin1 c = false -> char_isspace c = true ->
    isalpha_ext ucd c = false /\
    forall before after, lower_ext ucd before c after = [c].

(** The character class of the pattern
    [^\s*[\d\.\+\-\*/\^\(\)\s]+$]. *)
Definition arithmetic_class (ucd : UnicodeData) (c : char) : bool :=
  char_isdecimal ucd c || char_mem c (py ".+-*/^()") || char_isspace c.

(** A text matches the pattern when it is not empty and all its
    characters are of the class: the leading [\s*] and a line feed before
    [$] are of the class themselves. *)
Definition matches_arithmetic_pattern (ucd : UnicodeData) (text : str) : bool :=
  truthy text && forallb (arithmetic_class ucd) text.

(** The text gets as far as line 156 of the classifier. *)
Definition reaches_final_fallback (ucd : UnicodeData) (text : str) : bool :=
  negb (is_blank text)
  && match cjk_dominant text with Returns false => true | _ => false end
  && negb (has_very_bad_chars (lower ucd text))
  && negb (is_definitely_question (lower ucd text))
  && negb (explicit_phrase_rule (lower ucd text))
  && negb (structural_math_rule ucd text (lower ucd text))
  && negb (pure_arithmetic_rule ucd text (lower ucd text))
  && negb (alphabetic_dominance ucd text)
  && (15 <=? List.length (strip text))%nat.

(** The condition under which the remote backend is preferred, as the
    specification has it: configured, and CJK-dominant, or digits in a
    text longer than 50, or more than 7 words. *)
Definition prefers_remote_spec
    (ucd : UnicodeData) (env : NlpSolver.Env) (text : str) : bool :=
  NlpSolver.key_is_usable env
  && (match cjk_dominant text with Returns true => true | _ => false end
      || (NlpSolver.contains_digits ucd text && (50 <? List.length text)%nat)
      || (7 <? List.length (split text))%nat).

End Spec.

(** ** Invariants of the proofs *)

Module Invariants.

Import PyStr Classifier.

Local Open Scope N_scope.

(** A character is one of the tested symbols. *)
Definition tested (c : char) : bool := char_mem c Spec.tested_symbols.

(** [similar s t]: [t] is [s] with every character that is no tested
    symbol replaced by a non-empty run of such characters. *)
Inductive similar : str -> str -> Prop :=
| similar_nil : similar [] []
| similar_keep c s t :
    tested c = true -> similar s t -> similar (c :: s) (c :: t)
| similar_run c run s t :
    tested c = false -> run <> [] ->
    Forall (fun d => tested d = false) run ->
    similar s t -> similar (c :: s) (run ++ t).

(** A text holds a lower-case letter of the alphabet. *)
Definition has_lower (s : str) : bool := existsb ascii_islower s.

(** What holds of a Latin-1 character of the class. *)
Definition plain_latin1 (c : char) : bool :=
  negb (latin1_isupper c) && negb (latin1_isalpha c)
  && negb (ascii_islower c) && negb (_is_cjk c)
  && negb (char_mem c (py "°@:$?="))
  && implb (ascii_isdigit c) (latin1_isdigit c && negb (char_isspace c)).

Record plain (ucd : UnicodeData) (c : char) : Prop := {
  plain_lower : forall before after, lower_char ucd before c after = [c];
  plain_alpha : char_isalpha ucd c = false;
  plain_islower : ascii_islower c = false;
  plain_cjk : negb (char_isspace c) && _is_cjk c = false;
  plain_symbol : char_mem c (py "°@:$?=") = false;
  plain_digit :
    char_isdecimal ucd c = true ->
    char_isdigit ucd c = true /\ char_isspace c = false
}.

End Invariants.

(** ** Measures on the string handed to the solver *)

Module Guards.

Import PyStr.

Local Open Scope N_scope.

(** The variable of an equation, in either case. *)
Definition is_variable (c : char) : bool := (c =? 120) || (c =? 88).

(** Every variable of [s] stands right after an asterisk; [after_star]
    tells whether an asterisk stands right before [s]. *)
Fixpoint starred_from (after_star : bool) (s : str) : bool :=
  match s with
  | [] => true
  | c :: s' =>
      (if is_variable c then after_star else true)
      && starred_from (c =? 42) s'
  end.

(** Number of occurrences of a character. *)
Definition occurrences (c : char) (s : str) : nat :=
  Classifier.count_if (N.eqb c) s.

End Guards.

(** ** The reading of a reply of the remote service (ocr_module.py)

    Both functions of the module post a request, parse the body of the
    reply as JSON and walk through the parsed value (lines 84-105 and
    167-186); every exception is turned into a message by the handlers
    (lines 107-120 and 188-200). *)

Module PyJson.

Import PyStr.

(** A number as the parser builds it: an [int], or a [float], which may
    be one of the special values the parser accepts. *)
Inductive Num : Type :=
| Int (z : Z)
| Float (q : Q)
| NaN
| Infinity (negative : bool).

(** What [response.json()] returns.  An object is kept as the list of its
    entries; a key is looked up from the front. *)
#[warnings="-register-all"] Inductive Value : Type :=
| Null
| Bool (b : bool)
| Number (n : Num)
| Str (s : str)
| Arr (items : list Value)
| Obj (entries : list (str * Value)).

(** The subscript of [v[...]]: a field name, or the index 0, the only
    index the sources use. *)
Inductive Key : Type :=
| Field (name : str)
| Index0.

(** What the walk through a reply raises.  An exception records the
    operand it was raised on, which its text depends on. *)
Inductive Exn : Type :=
| KeyError (key : Key)
| IndexError (operand : Value)
| NotIterable (operand : Value)            (* TypeError of [in] and [for] *)
| BadSubscript (key : Key) (operand : Value) (* TypeError of [v[key]] *)
| BadJoinItem (position : nat) (item : Value) (* TypeError of [join] *)
| AttributeError (name : str) (operand : Value).

Inductive Outcome (A : Type) : Type :=
| Ok (a : A)
| Raise (e : Exn).

Arguments Ok {A} a.
Arguments Raise {A} e.

Definition bind {A B : Type} (r : Outcome A) (k : A -> Outcome B)
  : Outcome B :=
  match r with
  | Ok a => k a
  | Raise e => Raise e
  end.

Notation "x <<- r ;; k" := (bind r (fun x => k))
  (at level 61, r at next level, right associativity).

(** [a and b] where only the truth value of the result is used. *)
Definition and_then (a b : Outcome bool) : Outcome bool :=
  x <<- a ;; if x then b else Ok false.

Definition num_truthy (n : Num) : bool :=
  match n with
  | Int z => negb (z =? 0)%Z
  | Float q => negb (Qeq_bool q 0)
  | NaN => true
  | Infinity _ => true
  end.

(** Truth value. *)
Definition truthy (v : Value) : bool :=
  match v with
  | Null => false
  | Bool b => b
  | Number n => num_truthy n
  | Str s => PyStr.truthy s
  | Arr items => match items with [] => false | _ :: _ => true end
  | Obj entries => match entries with [] => false | _ :: _ => true end
  end.

Fixpoint assoc (name : str) (entries : list (str * Value)) : option Value :=
  match entries with
  | [] => None
  | (k, v) :: entries' => if eqb k name then Some v else assoc name entries'
  end.

(** [item == name] for a value and a string. *)
Definition is_str (name : str) (item : Value) : bool :=
  match item with
  | Str s => eqb s name
  | _ => false
  end.

(** [name in v]: a key of an object, an item of an array, a substring of
    a string. *)
Definition py_in (name : str) (v : Value) : Outcome bool :=
  match v with
  | Obj entries =>
      Ok (match assoc name entries with Some _ => true | None => false end)
  | Arr items => Ok (existsb (is_str name) items)
  | Str s => Ok (contains s name)
  | _ => Raise (NotIterable v)
  end.

(** [v[key]] *)
Definition getitem (key : Key) (v : Value) : Outcome Value :=
  match key, v with
  | Field name, Obj entries =>
      match assoc name entries with
      | Some x => Ok x
      | None => Raise (KeyError key)
      end
  | Index0, Obj _ => Raise (KeyError key)
  | Index0, Arr items =>
      match items with
      | x :: _ => Ok x
      | [] => Raise (IndexError v)
      end
  | Index0, Str s =>
      match s with
      | c :: _ => Ok (Str [c])
      | [] => Raise (IndexError v)
      end
  | _, _ => Raise (BadSubscript key v)
  end.

(** [v.get(name, default)] *)
Definition get (name : str) (default : Value) (v : Value) : Outcome Value :=
  match v with
  | Obj entries =>
      Ok (match assoc name entries with Some x => x | None => default end)
  | _ => Raise (AttributeError (py "get") v)
  end.

(** [v.strip()] *)
Definition py_strip (v : Value) : Outcome str :=
  match v with
  | Str s => Ok (strip s)
  | _ => Raise (AttributeError (py "strip") v)
  end.

(** The items a [for] loop over [v] visits. *)
Definition iterate (v : Value) : Outcome (list Value) :=
  match v with
  | Arr items => Ok items
  | Obj entries => Ok (map (fun e => Str (fst e)) entries)
  | Str s => Ok (map Str (chars_of s))
  | _ => Raise (NotIterable v)
  end.

(** A list comprehension: the items are mapped in order and the first
    exception ends it. *)
Fixpoint for_each {A B : Type} (f : A -> Outcome B) (l : list A)
  : Outcome (list B) :=
  match l with
  | [] => Ok []
  | a :: l' =>
      b <<- f a ;;
      bs <<- for_each f l' ;;
      Ok (b :: bs)
  end.

(** [sep.join(items)] with the empty separator: every item has to be a
    string. *)
Fixpoint join_from (position : nat) (items : list Value) : Outcome str :=
  match items with
  | [] => Ok []
  | Str s :: items' =>
      rest <<- join_from (S position) items' ;;
      Ok (s ++ rest)
  | item :: _ => Raise (BadJoinItem position item)
  end.

Definition join (items : list Value) : Outcome str := join_from 0 items.

End PyJson.

Module GeminiReply.

Import PyStr PyJson.

(** How lines 27-81 (lines 136-165) end: with the parsed body of the
    reply, or with an exception of one of the classes the handlers tell
    apart.  A [KeyError] raised there is raised before [response] is
    bound. *)
Inductive Exchange : Type :=
| Timeout
| RequestException (e : str)
| EarlyKeyError (e : str)
| OtherException (e : str)
| Replied (result : Value).

(** The texts in which the two functions differ. *)
Record Wording : Type := {
  unknown_structure_message : str;
  timeout_message : str;
  request_error_prefix : str;
  key_error_prefix : str;
  unexpected_prefix : str
}.

(** Lines 105, 108, 110, 118 and 120. *)
Definition ocr_wording : Wording := {|
  unknown_structure_message :=
    py "錯誤：無法從 Gemini API 回應中提取文字。回應結構未知或不包含預期的文字欄位。";
  timeout_message := py "錯誤：呼叫 Gemini API 時發生超時。";
  request_error_prefix := py "錯誤：呼叫 Gemini API 時發生網路或請求錯誤：";
  key_error_prefix :=
    py "錯誤：解析 Gemini API 回應時發生索引錯誤 (KeyError: ";
  unexpected_prefix :=
    py "錯誤：處理圖片或呼叫 Gemini API 時發生未預期的錯誤："
|}.

(** Lines 186, 189, 191, 198 and 200. *)
Definition solve_wording : Wording := {|
  unknown_structure_message :=
    py "錯誤：無法從 Gemini API 回應中提取解答。回應結構未知或不包含預期的文字欄位。";
  timeout_message :=
    py "錯誤：呼叫 Gemini API (solve_text_problem) 時發生超時。";
  request_error_prefix :=
    py "錯誤：呼叫 Gemini API (solve_text_problem) 時發生網路或請求錯誤：";
  key_error_prefix :=
    py "錯誤：解析 Gemini API 回應 (solve_text_problem) 時發生索引錯誤 (KeyError: ";
  unexpected_prefix :=
    py "錯誤：使用 Gemini API 解決文字問題時發生未預期的錯誤："
|}.

(** [str(KeyError(key))]: the [repr] of the key.  The field names are
    the literals of the sources, which [repr] puts between single
    quotes as they are. *)
Definition key_text (key : Key) : str :=
  match key with
  | Field name => py "'" ++ name ++ py "'"
  | Index0 => py "0"
  end.

Section WithInterpreter.

(** [repr(v)], and [str(e)] for the exceptions that reach the last
    handler: the wording of the interpreter. *)
Variable repr : Value -> str.
Variable exception_text : Exn -> str.

Variable w : Wording.

(** [f"{v}"]: a string is put in as it is, anything else by [repr]. *)
Definition format (v : Value) : str :=
  match v with
  | Str s => s
  | _ => repr v
  end.

(** [result['candidates']] and the values below it, as the sources spell
    them out at every use. *)
Definition candidates (result : Value) : Outcome Value :=
  getitem (Field (py "candidates")) result.

Definition first_candidate (result : Value) : Outcome Value :=
  c <<- candidates result ;; getitem Index0 c.

Definition content (result : Value) : Outcome Value :=
  c <<- first_candidate result ;; getitem (Field (py "content")) c.

Definition parts (result : Value) : Outcome Value :=
  c <<- content result ;; getitem (Field (py "parts")) c.

Definition first_part (result : Value) : Outcome Value :=
  p <<- parts result ;; getitem Index0 p.

Definition prompt_feedback (result : Value) : Outcome Value :=
  getitem (Field (py "promptFeedback")) result.

(** Lines 85-89 (168-172). *)
Definition has_first_text (result : Value) : Outcome bool :=
  and_then (py_in (py "candidates") result)
 (and_then (c <<- candidates result ;; Ok (truthy c))
 (and_then (c <<- first_candidate result ;; py_in (py "content") c)
 (and_then (c <<- content result ;; py_in (py "parts") c)
 (and_then (p <<- parts result ;; Ok (truthy p))
           (p <<- first_part result ;; py_in (py "text") p))))).

(** Line 92 (175). *)
Definition is_blocked (result : Value) : Outcome bool :=
  and_then (py_in (py "promptFeedback") result)
           (f <<- prompt_feedback result ;; py_in (py "blockReason") f).

(** Line 95 (178). *)
Definition blocked_message (block_reason safety_ratings_info : Value)
  : str :=
  py "錯誤：Gemini API 請求因安全原因被拒絕。原因：" ++ format block_reason
  ++ py "。安全評級詳情：" ++ format safety_ratings_info.

(** Line 100 (181). *)
Definition has_some_parts (result : Value) : Outcome bool :=
  and_then (c <<- get (py "candidates") Null result ;; Ok (truthy c))
 (and_then (c <<- first_candidate result ;;
            x <<- get (py "content") Null c ;; Ok (truthy x))
           (c <<- content result ;;
            x <<- get (py "parts") Null c ;; Ok (truthy x))).

(** Lines 101-102 (182-183). *)
Definition combined_text (result : Value) : Outcome str :=
  p <<- parts result ;;
  items <<- iterate p ;;
  all_text_parts <<- for_each (get (py "text") (Str [])) items ;;
  joined <<- join all_text_parts ;;
  Ok (strip joined).

(** Lines 85-105 (168-186). *)
Definition read (result : Value) : Outcome str :=
  first <<- has_first_text result ;;
  if first then
    p <<- first_part result ;;
    extracted_text <<- getitem (Field (py "text")) p ;;
    py_strip extracted_text
  else
    blocked <<- is_blocked result ;;
    if blocked then
      f <<- prompt_feedback result ;;
      block_reason <<- getitem (Field (py "blockReason")) f ;;
      f' <<- prompt_feedback result ;;
      safety_ratings_info <<- get (py "safetyRatings") (Str []) f' ;;
      Ok (blocked_message block_reason safety_ratings_info)
    else
      some <<- has_some_parts result ;;
      if some then
        combined <<- combined_text result ;;
        if PyStr.truthy combined then Ok combined
        else Ok (unknown_structure_message w)
      else Ok (unknown_structure_message w).

(** Lines 111-120 (192-200), for an exception raised while the reply is
    read: [response] is bound then and parses to the same value again. *)
Definition handle (result : Value) (e : Exn) : str :=
  match e with
  | KeyError key =>
      key_error_prefix w ++ key_text key ++ py ")。回應內容：" ++ format result
  | _ => unexpected_prefix w ++ exception_text e
  end.

(** Lines 26-120 (135-200), from the end of the request on. *)
Definition answer (x : Exchange) : str :=
  match x with
  | Timeout => timeout_message w
  | RequestException e => request_error_prefix w ++ e
  | EarlyKeyError e =>
      key_error_prefix w ++ e ++ py ")。回應內容：" ++ py "N/A"
  | OtherException e => unexpected_prefix w ++ e
  | Replied result =>
      match read result with
      | Ok text => text
      | Raise e => handle result e
      end
  end.

End WithInterpreter.

(** *** What a reply holds, read without the interpreter *)

Definition field (name : str) (v : Value) : option Value :=
  match v with
  | Obj entries => assoc name entries
  | _ => None
  end.

(** The array of parts of the first candidate. *)
Definition parts_of (result : Value) : option (list Value) :=
  match field (py "candidates") result with
  | Some (Arr (c :: _)) =>
      match field (py "content") c with
      | Some x =>
          match field (py "parts") x with
          | Some (Arr ps) => Some ps
          | _ => None
          end
      | None => None
      end
  | _ => None
  end.

(** The text of a part: its field [text] when that is a string. *)
Definition part_text (part : Value) : str :=
  match field (py "text") part with
  | Some (Str s) => s
  | _ => []
  end.

(** Every fixed text of the two functions begins with the marker the
    caller tests for (nlp_solver.py, line 68). *)
Definition marked (w : Wording) : Prop :=
  startswith (unknown_structure_message w) NlpSolver.error_marker = true
  /\ startswith (timeout_message w) NlpSolver.error_marker = true
  /\ startswith (request_error_prefix w) NlpSolver.error_marker = true
  /\ startswith (key_error_prefix w) NlpSolver.error_marker = true
  /\ startswith (unexpected_prefix w) NlpSolver.error_marker = true.

End GeminiReply.


(** ** The two requests of ocr_module.py *)

Module OcrCalls.

Import PyStr PyJson GeminiReply.

Local Open Scope N_scope.

(** [c.upper()] for a character of the alphabet or any other ASCII
    character. *)
Definition ascii_upper (c : char) : char :=
  if ascii_islower c then c - 32 else c.

(** Line 39. *)
Definition supported_formats : list str :=
  [py "PNG"; py "JPEG"; py "WEBP"; py "HEIC"; py "HEIF"].

(** The types that go with them (line 30). *)
Definition supported_types : list str :=
  [py "image/png"; py "image/jpeg"; py "image/webp"; py "image/heic";
   py "image/heif"].

(** Line 40. *)
Definition format_warning (img_format : str) : str :=
  py "警告：圖片原始格式 " ++ img_format
  ++ py " 可能不直接被 Gemini API 支援，將嘗試轉換為 PNG。".

(** Line 139. *)
Definition prompt (problem_text : str) : str :=
  py "請解決以下問題並提供詳細的步驟和最終答案：" ++ [LF; LF]
  ++ py "問題：" ++ problem_text ++ [LF; LF] ++ py "解答：".

Section WithInterpreter.

Variable ucd : UnicodeData.

(** [c.upper()] outside ASCII: the upper case of a character is one to
    three characters long and does not depend on the context. *)
Variable upper_ext : char -> str.

Variable repr : Value -> str.
Variable exception_text : Exn -> str.

(** [s.upper()] *)
Definition upper (s : str) : str :=
  flat_map (fun c => if c <? 128 then [ascii_upper c] else upper_ext c) s.

(** Lines 33-41: what is printed, and the format the image is saved
    in. *)
Definition choose_format (format : option str) : list str * str :=
  let img_format :=
    match format with
    | Some f => if PyStr.truthy f then f else py "PNG"
    | None => py "PNG"
    end in
  let img_format :=
    if eqb (upper img_format) (py "JPG") then py "JPEG" else img_format in
  if negb (mem (upper img_format) supported_formats)
  then ([format_warning img_format], py "PNG")
  else ([], img_format).

(** Line 50. *)
Definition mime_type (img_format : str) : str :=
  py "image/" ++ lower ucd img_format.

(** Lines 23-24 and 132-133. *)
Definition key_is_missing (API_KEY : str) : bool :=
  negb (PyStr.truthy API_KEY)
  || eqb API_KEY (py "YOUR_GEMINI_API_KEY")
  || eqb API_KEY (py "GEMINI_API_KEY").

Section WithImage.

Variable Image : Type.

(** [image_obj.format] *)
Variable format_of : Image -> option str.

(** Lines 43-81 for an image, the format it is saved in and the type it
    is declared with: saving, encoding, the request and the parsing of
    the body. *)
Variable send : Image -> str -> str -> Exchange.

(** [extract_text_from_image]: what it prints and what it returns. *)
Definition extract_text_from_image (API_KEY : str) (image_obj : Image)
  : list str * str :=
  if key_is_missing API_KEY then ([], OcrModule.key_not_set_message)
  else
    let '(printed, img_format) := choose_format (format_of image_obj) in
    (printed,
     answer repr exception_text ocr_wording
       (send image_obj img_format (mime_type img_format))).

End WithImage.

(** Lines 135-200 of [solve_text_problem_with_gemini]; [post] stands for
    lines 141-165, the request with a prompt and the parsing of the
    body. *)
Definition solve_exchange (post : str -> Exchange) (problem_text : str)
  : str :=
  answer repr exception_text solve_wording (post (prompt problem_text)).

Definition solve_text_problem_with_gemini
    (API_KEY : str) (post : str -> Exchange) (problem_text : str) : str :=
  OcrModule.solve_text_problem_with_gemini API_KEY (solve_exchange post)
    problem_text.

(** The globals and collaborators of nlp_solver.py with this module
    behind them. *)
Definition remote_env
    (NLP : option (str -> Py.Result str)) (API_KEY : str)
    (post : str -> Exchange) : NlpSolver.Env := {|
  NlpSolver.NLP := NLP;
  NlpSolver.API_KEY := API_KEY;
  NlpSolver.exchange := solve_exchange post
|}.

End WithInterpreter.

(** *** Replies for examples *)

(** A reply of the expected shape with one part. *)
Definition text_part (t : str) : Value := Obj [(py "text", Str t)].

Definition content_of_parts (ps : list Value) : Value :=
  Obj [(py "parts", Arr ps)].

Definition candidate_of (x : Value) : Value := Obj [(py "content", x)].

Definition text_reply (t : str) : Value :=
  Obj [(py "candidates",
        Arr [candidate_of (content_of_parts [text_part t])])].

(** A reply that tells of a blocked prompt. *)
Definition blocked_reply : Value :=
  Obj [(py "promptFeedback", Obj [(py "blockReason", Str (py "SAFETY"))])].

(** A reply whose candidates are an object. *)
Definition keyed_reply : Value :=
  Obj [(py "candidates", Obj [(py "first", Null)])].

Definition pens_question : str :=
  py "If 3 pens cost 12 dollars, how much do 7 pens cost in all?".

(** An interpreter for examples: [repr] and the text of an exception are
    left empty. *)
Definition no_repr (v : Value) : str := [].

Definition no_text (e : Exn) : str := [].

(** The upper case of the dotless i (U+0131) and of the long s
    (U+017F), two characters outside ASCII whose upper case is a letter
    of the alphabet. *)
Definition sample_upper (c : char) : str :=
  if c =? 305 then [73] else if c =? 383 then [83] else [c].

End OcrCalls.

(** ** One round of the main loop (lines 213-264 of the main script) *)

Module Main.

Import PyStr Py Classifier.

Local Open Scope N_scope.

(** What a round does that can be observed. *)
Inductive Event (Image : Type) : Type :=
| Printed (message : str)
| Asked (prompt : str)
| OcrCalled (img : Image)
| MathCalled (equation_str : str)
| TextCalled (text : str)
| VisualCalled (img : Image).

Arguments Printed {Image} message.
Arguments Asked {Image} prompt.
Arguments OcrCalled {Image} img.
Arguments MathCalled {Image} equation_str.
Arguments TextCalled {Image} text.
Arguments VisualCalled {Image} img.

(** The value of [solution] when it is not [None]. *)
Inductive Solution (MathAnswer VisualAnswer : Type) : Type :=
| OfMath (a : MathAnswer)
| OfText (s : str)
| OfVisual (v : VisualAnswer).

Arguments OfMath {MathAnswer VisualAnswer} a.
Arguments OfText {MathAnswer VisualAnswer} s.
Arguments OfVisual {MathAnswer VisualAnswer} v.

Section WithCollaborators.

Variable ucd : UnicodeData.

Variables Image MathAnswer VisualAnswer : Type.

(** What the main script calls: the value a call returns.
    [answer_text_question] may raise. *)
Variable extract_text_from_image : Image -> str.
Variable solve_equation : str -> MathAnswer.
Variable answer_text_question : str -> Result str.
Variable solve_visual_puzzle : Image -> VisualAnswer.

(** [nlp_solver.NLP is None] *)
Variable nlp_is_none : bool.

(** The names the classifier returns. *)
Definition type_name (t : ProblemType) : str :=
  match t with
  | Math => py "math"
  | Text => py "text"
  | Visual => py "visual"
  end.

(** Lines 229-234. *)
Definition override (user_override problem_type : str) : str :=
  if eqb user_override (py "m") then py "math"
  else if eqb user_override (py "t") then py "text"
  else if eqb user_override (py "v") then py "visual"
  else problem_type.

Definition is_blank (ocr_text : str) : bool :=
  negb (truthy ocr_text) || isspace ocr_text.

(** Line 256. *)
Definition nlp_missing_message : str :=
  py "NLP 模型未載入，無法處理文字問題。".

(** Line 264. *)
Definition unknown_type_message : str := py "錯誤：未知的問題類型。".

(** Line 219. *)
Definition no_text_message : str :=
  py "OCR 未能提取任何文字，或者發生錯誤。".

(** Three apostrophes. *)
Definition triple_quote : str := [39; 39; 39].

(** Line 217. *)
Definition extracted_message (ocr_text : str) : str :=
  py "OCR 提取的文字內容：" ++ [LF] ++ triple_quote ++ ocr_text
  ++ triple_quote.

(** Lines 241-264: the events and the value of [solution]. *)
Definition dispatch (problem_type ocr_text : str) (img : Image)
  : list (Event Image)
    * Result (option (Solution MathAnswer VisualAnswer)) :=
  if eqb problem_type (py "math") then
    if is_blank ocr_text then
      ([Printed (py "錯誤：數學問題需要從圖片中提取到方程式文字。")],
       Returns None)
    else
      ([Printed (py "正在嘗試使用數學求解器..."); MathCalled ocr_text],
       Returns (Some (OfMath (solve_equation ocr_text))))
  else if eqb problem_type (py "text") then
    if is_blank ocr_text then
      ([Printed (py "錯誤：文字問題需要從圖片中提取到文字內容。")],
       Returns None)
    else if nlp_is_none then
      ([], Returns (Some (OfText nlp_missing_message)))
    else
      ([Printed (py "正在嘗試使用 NLP 求解器..."); TextCalled ocr_text],
       match answer_text_question ocr_text with
       | Returns s => Returns (Some (OfText s))
       | Raises e => Raises e
       end)
  else if eqb problem_type (py "visual") then
    ([Printed (py "正在嘗試使用視覺謎題求解器..."); VisualCalled img],
     Returns (Some (OfVisual (solve_visual_puzzle img))))
  else ([], Returns (Some (OfText unknown_type_message))).

(** Lines 214-220: the events, and [ocr_text]. *)
Definition recognise (img : Image) : list (Event Image) * str :=
  let ocr_text := extract_text_from_image img in
  ([Printed ([LF] ++ py "正在對圖片進行 OCR 文字提取..."); OcrCalled img]
   ++ (if truthy ocr_text then [Printed (extracted_message ocr_text)]
       else [Printed no_text_message]),
   ocr_text).

(** Lines 214-264 for an image and the line the user types at the
    prompt of line 228. *)
Definition round (img : Image) (typed : str)
  : list (Event Image)
    * Result (option (Solution MathAnswer VisualAnswer)) :=
  let '(seen, ocr_text) := recognise img in
  match determine_problem_type ucd ocr_text img with
  | Raises e => (seen, Raises e)
  | Returns t =>
      let problem_type := type_name t in
      let user_override := lower ucd typed in
      let problem_type' := override user_override problem_type in
      let '(done, solution) := dispatch problem_type' ocr_text img in
      (seen
       ++ [Printed ([LF] ++ py "根據分析，判斷問題類型為：" ++ problem_type);
           Asked (py "是否同意此判斷？若要修改，請輸入 (m)數學, (t)文字, (v)視覺，否則直接按 Enter: ");
           Printed (py "最終問題類型：" ++ problem_type');
           Printed (repeat 45 20)]
       ++ done,
       solution)
  end.

(** A solver was called. *)
Definition is_solver_call (e : Event Image) : bool :=
  match e with
  | MathCalled _ | TextCalled _ | VisualCalled _ => true
  | _ => false
  end.

End WithCollaborators.

End Main.

(** ** The local analysis of [answer_text_question] (nlp_solver.py,
       lines 79-165) *)

Module LocalAnalysis.

Import PyStr Py.

Local Open Scope N_scope.

(** What the function reads of the document the pipeline builds: the
    text, the part of speech and the lemma of a token; the text and the
    label of an entity; the text of a noun chunk. *)
Record Token : Type := {
  token_text : str;
  pos_ : str;
  lemma_ : str
}.

Record Span : Type := {
  span_text : str;
  label_ : str
}.

Record Doc : Type := {
  tokens : list Token;
  ents : list Span;
  noun_chunks : list str
}.

(** [s.split(sep)] for a separator that is not empty: [s] is cut at the
    occurrences of [sep], found from the left and not overlapping.
    [skip] counts the characters of an occurrence still to pass, [cur]
    is the piece being read. *)
Fixpoint split_by (sep : str) (skip : nat) (cur s : str) : list str :=
  match s with
  | [] => [cur]
  | c :: s' =>
      match skip with
      | S k => split_by sep k cur s'
      | O =>
          if startswith s sep
          then cur :: split_by sep (List.length sep - 1) [] s'
          else split_by sep 0 (cur ++ [c]) s'
      end
  end.

Definition split_at (sep s : str) : list str := split_by sep 0 [] s.

(** Lines 94-102. *)
Definition knowledge_base : list (str * str) :=
  [(py "capital_of_france", py "Paris");
   (py "capital_of_japan", py "Tokyo");
   (py "capital_of_germany", py "Berlin");
   (py "capital_of_united_states", py "Washington D.C.");
   (py "painter_of_mona_lisa", py "Leonardo da Vinci");
   (py "chemical_symbol_for_water", py "H2O");
   (py "president_of_the_united_states", py "Joe Biden")].

(** [knowledge_base[key]] under the test [key in knowledge_base]. *)
Fixpoint lookup (key : str) (entries : list (str * str)) : option str :=
  match entries with
  | [] => None
  | (k, v) :: entries' => if eqb k key then Some v else lookup key entries'
  end.

(** Line 89. *)
Definition question_words : list str :=
  [py "what"; py "who"; py "where"; py "when"; py "why"; py "how"].

(** Lines 109-113: the text of the first entity labelled GPE. *)
Fixpoint first_gpe (entities : list Span) : option str :=
  match entities with
  | [] => None
  | ent :: entities' =>
      if eqb (label_ ent) (py "GPE") then Some (span_text ent)
      else first_gpe entities'
  end.

(** Line 138. *)
Definition unknown_painter_message : str :=
  py "抱歉，我不知道誰畫了《蒙娜麗莎》。".

(** Line 145. *)
Definition unknown_symbol_message : str :=
  py "抱歉，我不知道水的化學符號是什麼。".

(** Line 152. *)
Definition unknown_president_message : str :=
  py "抱歉，我不知道美國的現任總統是誰。".

Section WithModel.

Variable ucd : UnicodeData.

(** The title case of a character outside ASCII, which [capitalize]
    puts first. *)
Variable title_ext : char -> str.

(** [str(l)] for a list of strings. *)
Variable repr_list : list str -> str.

(** Lines 79-83: the document of the text with its tokens, entities and
    noun chunks, or what the pipeline raises on the text (it refuses a
    text over its length limit with a [ValueError]). *)
Variable nlp : str -> Result Doc.

(** [s.capitalize()]: the first character in title case, the others in
    lower case. *)
Definition capitalize (s : str) : str :=
  match s with
  | [] => []
  | c :: rest =>
      (if c <? 128 then [OcrCalls.ascii_upper c] else title_ext c)
      ++ lower_from ucd [c] rest
  end.

(** Lines 121-131. *)
Definition fallback_capital_answer (lower_text : str) : str :=
  let possible_country_phrase :=
    replace 63 [] (strip (last (split_at (py "capital of") lower_text) []))
  in
  if truthy possible_country_phrase then
    let key :=
      py "capital_of_" ++ replace 32 (py "_") possible_country_phrase in
    match lookup key knowledge_base with
    | Some capital =>
        capitalize possible_country_phrase ++ py " 的首都是 " ++ capital
        ++ py "。"
    | None =>
        py "抱歉，我不太確定您指的是哪個國家/地區的首都，或者我不知道答案。"
    end
  else py "抱歉，我無法從您的問題中識別出國家名稱。".

(** Lines 108-131. *)
Definition capital_answer (doc : Doc) (lower_text : str) : str :=
  match first_gpe (ents doc) with
  | Some country_name =>
      if truthy country_name then
        let key :=
          py "capital_of_" ++ replace 32 (py "_") (lower ucd country_name)
        in
        match lookup key knowledge_base with
        | Some capital =>
            country_name ++ py " 的首都是 " ++ capital ++ py "。"
        | None =>
            py "抱歉，我不知道 " ++ country_name ++ py " 的首都是什麼。"
        end
      else fallback_capital_answer lower_text
  | None => fallback_capital_answer lower_text
  end.

(** Line 134, after the test of the question type. *)
Definition asks_for_painter (text lower_text : str) : bool :=
  contains lower_text (py "painted")
  && (contains lower_text (py "mona lisa") || contains text (py "Mona Lisa")).

(** Line 141, after the test of the question type. *)
Definition asks_for_symbol (lower_text : str) : bool :=
  contains lower_text (py "chemical symbol")
  && contains lower_text (py "water").

(** Line 148, after the test of the question type. *)
Definition asks_for_president (text lower_text : str) : bool :=
  contains lower_text (py "president")
  && (contains lower_text (py "united states") || contains text (py "US")
      || contains text (py "U.S.")).

(** Lines 155-165. *)
Definition analysis_response
    (question_type : str) (entities noun_phrases verbs : list str) : str :=
  py "(spaCy 分析):" ++ [LF] ++ py "偵測到的問題類型：" ++ question_type
  ++ [LF]
  ++ py "偵測到的實體：" ++ repr_list entities ++ [LF]
  ++ py "偵測到的名詞短語：" ++ repr_list noun_phrases ++ [LF]
  ++ py "偵測到的主要動詞 (詞元)：" ++ repr_list verbs ++ [LF; LF]
  ++ (if match entities with [] => true | _ => false end
         && match noun_phrases with [] => true | _ => false end
         && eqb question_type (py "未知")
      then py "這似乎不是一個包含足夠資訊的問題，或者我無法正確解析它。"
      else py "這是一個初步的分析。我目前無法直接回答這個問題，但以上是我的理解。").

(** Lines 81-165, for the document of line 79.  Reading the first
    token of a document without tokens raises (line 88); nothing else
    does. *)
Definition analyse (text : str) (doc : Doc) : Result str :=
  let entities := map span_text (ents doc) in
  let noun_phrases := noun_chunks doc in
  let verbs :=
    map lemma_ (filter (fun token => eqb (pos_ token) (py "VERB"))
                  (tokens doc)) in
  let lower_text := lower ucd text in
  match tokens doc with
  | [] => Raises IndexError
  | first :: _ =>
      let first_token_lower := lower ucd (token_text first) in
      let question_type :=
        if mem first_token_lower question_words then first_token_lower
        else py "未知" in
      if eqb question_type (py "what")
         && contains lower_text (py "capital of")
      then Returns (capital_answer doc lower_text)
      else if eqb question_type (py "who") && asks_for_painter text lower_text
      then
        match lookup (py "painter_of_mona_lisa") knowledge_base with
        | Some painter =>
            Returns (py "《蒙娜麗莎》是由 " ++ painter ++ py " 繪製的。")
        | None => Returns unknown_painter_message
        end
      else if eqb question_type (py "what") && asks_for_symbol lower_text
      then
        match lookup (py "chemical_symbol_for_water") knowledge_base with
        | Some symbol => Returns (py "水的化學符號是 " ++ symbol ++ py "。")
        | None => Returns unknown_symbol_message
        end
      else if eqb question_type (py "who")
              && asks_for_president text lower_text
      then
        match lookup (py "president_of_the_united_states") knowledge_base
        with
        | Some president =>
            Returns (py "美國的現任總統是 " ++ president
                     ++ py "。(請注意，此資訊可能已過時)")
        | None => Returns unknown_president_message
        end
      else Returns (analysis_response question_type entities noun_phrases
                      verbs)
  end.

(** Lines 79-165. *)
Definition local_answer (text : str) : Result str :=
  match nlp text with
  | Raises e => Raises e
  | Returns doc => analyse text doc
  end.

End WithModel.

End LocalAnalysis.

(** * Facts about the string operations *)

Module PyStrFacts.

Import PyStr.

Local Open Scope N_scope.

Lemma replace_app (old : char) (new s t : str) :
  replace old new (s ++ t) = replace old new s ++ replace old new t.
Proof. unfold replace. apply flat_map_app. Qed.

Lemma replace_absent (old : char) (new s : str) :
  ~ In old s -> replace old new s = s.
Proof.
  induction s as [|c s IH]; intros Hn; [reflexivity|].
  unfold replace in *. simpl.
  destruct (N.eqb_spec c old) as [->|_].
  - exfalso. apply Hn. now left.
  - simpl. f_equal. apply IH. intros Hin. apply Hn. now right.
Qed.

Lemma in_replace (old : char) (new s : str) (c : char) :
  In c (replace old new s) -> In c new \/ In c s.
Proof.
  induction s as [|d s IH]; simpl; [tauto|].
  unfold replace in *. simpl. rewrite in_app_iff.
  intros [H|H].
  - destruct (d =? old); [now left|].
    destruct H as [->|[]]. right. now left.
  - destruct (IH H); [now left|right; now right].
Qed.

Lemma length_replace_ge (old : char) (new s : str) :
  new <> [] -> (List.length s <= List.length (replace old new s))%nat.
Proof.
  intros Hnew. induction s as [|c s IH]; [reflexivity|].
  unfold replace in *. simpl. rewrite length_app.
  destruct (c =? old).
  - destruct new; [congruence|]. simpl. lia.
  - simpl. lia.
Qed.

Lemma Forall_replace (P : char -> Prop) (old : char) (new s : str) :
  Forall P new -> Forall P s -> Forall P (replace old new s).
Proof.
  intros Hnew Hs. apply Forall_forall. intros c Hc.
  destruct (@in_replace _ _ _ _ Hc) as [H|H];
    [eapply Forall_forall in Hnew | eapply Forall_forall in Hs]; eauto.
Qed.

(** Splitting and joining with the empty string deletes the white space
    and nothing else. *)
Lemma join_split_from (cur s : str) :
  join_empty (split_from cur s)
  = cur ++ filter (fun c => negb (char_isspace c)) s.
Proof.
  revert cur. induction s as [|c s IH]; intros cur; simpl.
  - destruct cur; simpl; [reflexivity|]. now rewrite app_nil_r.
  - destruct (char_isspace c); simpl.
    + destruct cur; simpl; rewrite IH; reflexivity.
    + rewrite IH. now rewrite <- app_assoc.
Qed.

Lemma join_split (s : str) :
  join_empty (split s) = filter (fun c => negb (char_isspace c)) s.
Proof. unfold split. now rewrite join_split_from. Qed.

Lemma filter_id (A : Type) (f : A -> bool) (l : list A) :
  Forall (fun x => f x = true) l -> filter f l = l.
Proof.
  induction 1 as [|x l Hx _ IH]; simpl; [reflexivity|].
  now rewrite Hx, IH.
Qed.

End PyStrFacts.

(** * The preprocessing of [solve_equation] *)

Module MathSolverFacts.

Import PyStr PyStrFacts MathSolver.

Local Open Scope N_scope.

Lemma remove_whitespace_app (s t : str) :
  remove_whitespace (s ++ t) = remove_whitespace s ++ remove_whitespace t.
Proof. unfold remove_whitespace. rewrite !join_split. apply filter_app. Qed.

Lemma caret_to_power_app (s t : str) :
  caret_to_power (s ++ t) = caret_to_power s ++ caret_to_power t.
Proof. apply replace_app. Qed.

Lemma insert_multiplication_app (s t : str) :
  insert_multiplication (s ++ t)
  = insert_multiplication s ++ insert_multiplication t.
Proof. unfold insert_multiplication. now rewrite !replace_app. Qed.

Lemma insert_multiplication_no_equals (s : str) :
  ~ In (N_of_ascii "=") s -> ~ In (N_of_ascii "=") (insert_multiplication s).
Proof.
  intros Hn Hin. unfold insert_multiplication in Hin.
  apply in_replace in Hin. destruct Hin as [Hin|Hin].
  - vm_compute in Hin. intuition discriminate.
  - apply in_replace in Hin. destruct Hin as [Hin|Hin]; [|tauto].
    vm_compute in Hin. intuition discriminate.
Qed.

(** The normal form never has white space in it. *)
Lemma normalize_no_whitespace (s : str) :
  Forall (fun c => negb (char_isspace c) = true) (normalize s).
Proof.
  unfold normalize, remove_whitespace. rewrite join_split.
  apply Forall_forall. intros c Hc. now apply filter_In in Hc.
Qed.

(** On a text without white space the preprocessing adds at least the
    closing parenthesis. *)
Lemma normalize_grows (s : str) :
  Forall (fun c => negb (char_isspace c) = true) s ->
  (List.length s < List.length (normalize s))%nat.
Proof.
  intros Hs. unfold normalize, remove_whitespace. rewrite join_split.
  rewrite filter_id.
  - unfold caret_to_power, equality_to_zero, insert_multiplication.
    pose proof (@length_replace_ge (N_of_ascii "x") (py "*x") s) as H1.
    pose proof (@length_replace_ge (N_of_ascii "X") (py "*X")
                  (replace (N_of_ascii "x") (py "*x") s)) as H2.
    pose proof (@length_replace_ge (N_of_ascii "=") (py "-(")
                  (replace (N_of_ascii "X") (py "*X")
                     (replace (N_of_ascii "x") (py "*x") s))) as H3.
    pose proof (@length_replace_ge (N_of_ascii "^") (py "**")
                  (replace (N_of_ascii "=") (py "-(")
                     (replace (N_of_ascii "X") (py "*X")
                        (replace (N_of_ascii "x") (py "*x") s)) ++ py ")"))
      as H4.
    rewrite length_app in H4. change (List.length (py ")")) with 1%nat in H4.
    assert (py "*x" <> []) by (vm_compute; discriminate).
    assert (py "*X" <> []) by (vm_compute; discriminate).
    assert (py "-(" <> []) by (vm_compute; discriminate).
    assert (py "**" <> []) by (vm_compute; discriminate).
    intuition lia.
  - unfold caret_to_power, equality_to_zero, insert_multiplication.
    repeat first
      [ apply Forall_replace | apply Forall_app; split | assumption
      | (repeat constructor; fail) ].
Qed.

(** Idempotence fails on every input: a second pass makes the result
    longer. *)
Lemma normalize_never_idempotent (x : str) :
  normalize (normalize x) <> normalize x.
Proof.
  intros Heq.
  pose proof (@normalize_grows _ (normalize_no_whitespace x)) as H.
  rewrite Heq in H. lia.
Qed.

(** C1 (as amended).  The four transforms run in the order implied
    multiplication, equality sign, power operator, white space; and an
    input [lhs = rhs] with a single equality sign becomes the left side
    followed by [-(], the right side and [)], each side having gone
    through the three other transforms: the right side is parenthesised,
    the left side is not. *)
Theorem C1_normalize_single_equality (lhs rhs : str) :
  ~ In (N_of_ascii "=") lhs ->
  ~ In (N_of_ascii "=") rhs ->
  let raw := lhs ++ py "=" ++ rhs in
  normalize raw
  = remove_whitespace
      (caret_to_power (equality_to_zero (insert_multiplication raw)))
  /\ normalize raw
     = normalize_side lhs ++ py "-(" ++ normalize_side rhs ++ py ")".
Proof.
  intros Hl Hr raw. split; [reflexivity|].
  unfold normalize, normalize_side, raw.
  rewrite !insert_multiplication_app.
  unfold equality_to_zero. rewrite !replace_app.
  rewrite (@replace_absent _ _ _ (@insert_multiplication_no_equals _ Hl)).
  rewrite (@replace_absent _ _ _ (@insert_multiplication_no_equals _ Hr)).
  rewrite !caret_to_power_app, !remove_whitespace_app.
  rewrite <- !app_assoc. reflexivity.
Qed.

Lemma C1_normalize_single_equality_witness :
  normalize (py "2x = 4")
  = normalize_side (py "2x ") ++ py "-(" ++ normalize_side (py " 4") ++ py ")".
Proof.
  apply (@C1_normalize_single_equality (py "2x ") (py " 4"));
    vm_compute; intuition discriminate.
Defined.

(** C1, counterexample.  For [2x=4] the code hands [2*x-(4)] to the
    solver, the form of the specification is [(2*x)-(4)]. *)
Lemma C1_counterexample :
  normalize (py "2x=4") = py "2*x-(4)"
  /\ normalize_spec (py "2x=4") = py "(2*x)-(4)"
  /\ normalize (py "2x=4") <> normalize_spec (py "2x=4").
Proof. vm_compute. repeat split; discriminate. Qed.

(** C2.  An input that is already in normal form is changed by the
    preprocessing, and changed again by a second pass. *)
Theorem C2_normalize_not_idempotent :
  normalize (py "2*x-4") = py "2**x-4)"
  /\ normalize (normalize (py "2*x-4")) = py "2***x-4))"
  /\ normalize (normalize (py "2*x-4")) <> normalize (py "2*x-4").
Proof. vm_compute. repeat split; discriminate. Qed.

End MathSolverFacts.

(** * The classifier *)

Module ClassifierFacts.

Import PyStr Py Classifier PyStrFacts.

Local Open Scope N_scope.

(** ** The counting loop *)

Lemma count_chars_from (s : str) (cjk total : nat) :
  fold_left count_step s (cjk, total)
  = ((cjk + count_if (fun c => negb (char_isspace c) && _is_cjk c) s)%nat,
     (total + count_if (fun c => negb (char_isspace c)) s)%nat).
Proof.
  revert cjk total. unfold count_if.
  induction s as [|c s IH]; intros cjk total; simpl.
  - f_equal; lia.
  - destruct (char_isspace c); simpl.
    + apply IH.
    + destruct (_is_cjk c); simpl; rewrite IH; f_equal; lia.
Qed.

Lemma total_non_whitespace_chars_count (s : str) :
  total_non_whitespace_chars s = count_if (fun c => negb (char_isspace c)) s.
Proof.
  unfold total_non_whitespace_chars, count_chars.
  now rewrite count_chars_from.
Qed.

Lemma cjk_char_count_count (s : str) :
  cjk_char_count s
  = count_if (fun c => negb (char_isspace c) && _is_cjk c) s.
Proof.
  unfold cjk_char_count, count_chars. now rewrite count_chars_from.
Qed.

Lemma count_if_none (f : char -> bool) (s : str) :
  forallb f s = true -> count_if (fun c => negb (f c)) s = O.
Proof.
  unfold count_if. induction s as [|c s IH]; simpl; [reflexivity|].
  intros H. apply andb_prop in H. destruct H as [Hc Hs].
  rewrite Hc. now apply IH.
Qed.

Lemma blank_has_no_visible_char (s : str) :
  Spec.is_blank s = true -> total_non_whitespace_chars s = O.
Proof.
  rewrite total_non_whitespace_chars_count.
  unfold Spec.is_blank, isspace. destruct s as [|c s]; [reflexivity|].
  cbn [truthy negb orb andb]. apply count_if_none.
Qed.

(** ** The guarded division *)

Lemma truediv_ratio (s : str) :
  total_non_whitespace_chars s <> O ->
  truediv (cjk_char_count s) (total_non_whitespace_chars s)
  = Returns (Spec.cjk_ratio s).
Proof.
  unfold truediv, Spec.cjk_ratio.
  destruct (total_non_whitespace_chars s); [congruence|reflexivity].
Qed.

Lemma cjk_dominant_total (s : str) :
  cjk_dominant s
  = Returns ((5 <? total_non_whitespace_chars s)%nat
             && gt (Spec.cjk_ratio s) (1 # 2)).
Proof.
  unfold cjk_dominant.
  destruct (Nat.ltb_spec 5 (total_non_whitespace_chars s)) as [H|H].
  - rewrite truediv_ratio by lia. reflexivity.
  - reflexivity.
Qed.

Lemma gt_iff (x y : Q) : gt x y = true <-> (y < x)%Q.
Proof.
  unfold gt. rewrite negb_true_iff.
  destruct (Qle_bool x y) eqn:E.
  - apply Qle_bool_iff in E. split; [discriminate|].
    intros H. exfalso. now apply (Qlt_not_le _ _ H).
  - split; [|reflexivity]. intros _. apply Qnot_le_lt.
    intros H. apply Qle_bool_iff in H. congruence.
Qed.

(** ** The cascade never raises *)

Lemma determine_problem_type_unfold
    (ucd : UnicodeData) (Image : Type) (s : str) (img : Image) :
  determine_problem_type ucd s img
  = Returns
      (if Spec.is_blank s then Visual
       else if (5 <? total_non_whitespace_chars s)%nat
               && gt (Spec.cjk_ratio s) (1 # 2) then Text
       else if has_very_bad_chars (lower ucd s) then
         (if is_question_like_despite_bad_chars (lower ucd s)
          then Text else Visual)
       else classify_clean ucd s (lower ucd s)).
Proof.
  unfold determine_problem_type, Spec.is_blank.
  destruct (negb (truthy s) || isspace s); [reflexivity|].
  rewrite cjk_dominant_total. cbn [bind].
  destruct ((5 <? total_non_whitespace_chars s)%nat
            && gt (Spec.cjk_ratio s) (1 # 2)); [reflexivity|].
  destruct (has_very_bad_chars (lower ucd s)); [|reflexivity].
  destruct (is_question_like_despite_bad_chars (lower ucd s)); reflexivity.
Qed.

(** C4.  A text with more than five characters that are not white space,
    more than half of them CJK, is classified as text, whatever else it
    holds. *)
Theorem C4_cjk_dominant_is_text
    (ucd : UnicodeData) (Image : Type) (text : str) (img : Image) :
  (5 < total_non_whitespace_chars text)%nat ->
  (1 # 2 < Spec.cjk_ratio text)%Q ->
  determine_problem_type ucd text img = Returns Text.
Proof.
  intros Hlen Hratio. rewrite determine_problem_type_unfold.
  destruct (Spec.is_blank text) eqn:Hblank.
  - apply blank_has_no_visible_char in Hblank. lia.
  - apply Nat.ltb_lt in Hlen. apply gt_iff in Hratio.
    now rewrite Hlen, Hratio.
Qed.

Lemma C4_cjk_dominant_is_text_witness :
  determine_problem_type latin1_only (py "圖片中有一個問題: 2+2=4") tt
  = Returns Text.
Proof.
  apply C4_cjk_dominant_is_text.
  - vm_compute. lia.
  - vm_compute. reflexivity.
Defined.

(** C9.  The classifier returns on every input, so the division of the
    two counts is never one by zero: it is made only under the guard of
    more than five visible characters, where its value is the ratio of the
    script detector; on an empty or blank text that ratio is 0 and the
    classifier answers visual before any count is taken. *)
Theorem C9_no_division_by_zero
    (ucd : UnicodeData) (Image : Type) (text : str) (img : Image) :
  (exists t, determine_problem_type ucd text img = Returns t)
  /\ cjk_dominant text
     = Returns ((5 <? total_non_whitespace_chars text)%nat
                && gt (Spec.cjk_ratio text) (1 # 2))
  /\ (forall e, truediv (cjk_char_count text)
                  (total_non_whitespace_chars text) = Raises e ->
                (5 <? total_non_whitespace_chars text)%nat = false)
  /\ (Spec.is_blank text = true ->
      Spec.cjk_ratio text = 0%Q
      /\ determine_problem_type ucd text img = Returns Visual)
  /\ Spec.cjk_ratio (py "") = 0%Q
  /\ Spec.cjk_ratio (py "   ") = 0%Q.
Proof.
  split; [|split; [|split; [|split; [|split]]]].
  - rewrite determine_problem_type_unfold. eauto.
  - apply cjk_dominant_total.
  - intros e He. unfold truediv in He.
    destruct (total_non_whitespace_chars text); [reflexivity|discriminate].
  - intros Hblank. split.
    + unfold Spec.cjk_ratio.
      now rewrite (blank_has_no_visible_char _ Hblank).
    + rewrite determine_problem_type_unfold. now rewrite Hblank.
  - reflexivity.
  - reflexivity.
Qed.

(** ** Substrings of one character *)

Lemma contains_char (s : str) (c : char) :
  contains s [c] = existsb (N.eqb c) s.
Proof.
  induction s as [|d s IH]; [reflexivity|].
  cbn [contains startswith existsb]. rewrite IH.
  rewrite andb_true_r, N.eqb_sym. reflexivity.
Qed.

Lemma contains_char_In (s : str) (c : char) :
  contains s [c] = true <-> In c s.
Proof.
  rewrite contains_char, existsb_exists. split.
  - intros [d [Hd E]]. apply N.eqb_eq in E. now subst.
  - intros H. exists c. split; [exact H|apply N.eqb_refl].
Qed.

Lemma has_math_operators_false (s : str) :
  (forall c, In c (py "+-*/^") -> ~ In c s) -> has_math_operators s = false.
Proof.
  intros H. unfold has_math_operators, chars_of.
  apply not_true_is_false. intros E.
  apply existsb_exists in E. destruct E as [op [Hop E]].
  apply in_map_iff in Hop. destruct Hop as [c [<- Hc]].
  apply contains_char_In in E. exact (H c Hc E).
Qed.

(** C10.  The equality sign is no operator for the classifier: on a text
    with digits and an equality sign and none of [+ - * / ^] neither the
    structural rule nor the pure-arithmetic rule nor the last try for math
    fires; and [solve x=2] is classified as visual, whatever the image. *)
Theorem C10_equals_is_no_operator
    (ucd : UnicodeData) (Image : Type) (text : str) (img : Image) :
  has_digits ucd text = true ->
  In (N_of_ascii "=") text ->
  (forall c, In c (py "+-*/^") -> ~ In c text) ->
  structural_math_rule ucd text (lower ucd text) = false
  /\ pure_arithmetic_rule ucd text (lower ucd text) = false
  /\ math_recheck ucd text (lower ucd text) = false
  /\ determine_problem_type ucd (py "solve x=2") img = Returns Visual.
Proof.
  intros _ _ Hops. apply has_math_operators_false in Hops.
  unfold structural_math_rule, pure_arithmetic_rule, is_pure_arithmetic,
    math_recheck.
  rewrite Hops, !andb_false_r. cbn [andb orb].
  repeat split; vm_compute; reflexivity.
Qed.

Lemma C10_equals_is_no_operator_witness :
  structural_math_rule latin1_only (py "x = 2") (lower latin1_only (py "x = 2"))
  = false
  /\ pure_arithmetic_rule latin1_only (py "x = 2")
       (lower latin1_only (py "x = 2")) = false
  /\ math_recheck latin1_only (py "x = 2") (lower latin1_only (py "x = 2"))
     = false
  /\ determine_problem_type latin1_only (py "solve x=2") tt = Returns Visual.
Proof.
  apply (@C10_equals_is_no_operator latin1_only unit (py "x = 2") tt).
  - reflexivity.
  - vm_compute. tauto.
  - vm_compute. intros c H. intuition (subst; discriminate).
Defined.

(** ** The end of the cascade *)

(** C3 (as amended).  A text that gets as far as the final fallback is
    classified by it alone: with a digit or a letter in it, math when it
    has an operator and a digit, and text when it has not; with neither
    digit nor letter, visual. *)
Theorem C3_final_fallback
    (ucd : UnicodeData) (Image : Type) (text : str) (img : Image) :
  Spec.reaches_final_fallback ucd text = true ->
  determine_problem_type ucd text img
  = Returns
      (if has_digits ucd text || has_alpha ucd text then
         (if has_math_operators text && has_digits ucd text
          then Math else Text)
       else Visual).
Proof.
  unfold Spec.reaches_final_fallback. intros H.
  repeat (apply andb_prop in H; let H' := fresh "G" in destruct H as [H H']).
  rewrite negb_true_iff in *.
  apply Nat.leb_le in G. apply Nat.ltb_ge in G.
  rewrite determine_problem_type_unfold, H.
  assert (Hdom : ((5 <? total_non_whitespace_chars text)%nat
                  && gt (Spec.cjk_ratio text) (1 # 2)) = false).
  { rewrite cjk_dominant_total in G6.
    destruct ((5 <? total_non_whitespace_chars text)%nat
              && gt (Spec.cjk_ratio text) (1 # 2)); [discriminate|reflexivity]. }
  rewrite Hdom, G5. unfold classify_clean.
  rewrite G4, G3, G2, G1, G0, G.
  unfold math_recheck. rewrite G5. cbn [negb]. now rewrite andb_true_r.
Qed.

Lemma C3_final_fallback_witness :
  determine_problem_type latin1_only (py "12345 + 67890 # 11111") tt
  = Returns Math.
Proof.
  apply (@C3_final_fallback latin1_only unit (py "12345 + 67890 # 11111") tt).
  vm_compute. reflexivity.
Defined.

(** The same verdict under every database: the text is Latin-1. *)
Lemma fifteen_plus_signs_visual
    (ucd : UnicodeData) (Image : Type) (img : Image) :
  determine_problem_type ucd (py "+++++++++++++++") img = Returns Visual.
Proof. vm_compute. reflexivity. Qed.

(** C3, counterexample.  Fifteen plus signs get as far as the final
    fallback, hold neither digit nor letter, and are classified as visual,
    not as text. *)
Lemma C3_counterexample :
  Spec.reaches_final_fallback latin1_only (py "+++++++++++++++") = true
  /\ has_digits latin1_only (py "+++++++++++++++")
     || has_alpha latin1_only (py "+++++++++++++++") = false
  /\ determine_problem_type latin1_only (py "+++++++++++++++") tt
     = Returns Visual
  /\ Visual <> Text.
Proof. vm_compute. repeat split; discriminate. Qed.

End ClassifierFacts.

(** * The routing of text questions *)

Module NlpSolverFacts.

Import PyStr Py NlpSolver.

Local Open Scope N_scope.

Lemma usable_key_is_set (env : Env) :
  key_is_usable env = true -> truthy (API_KEY env) = true.
Proof. unfold key_is_usable. intros H. now apply andb_prop in H. Qed.

Lemma early_return_needs_no_key (ucd : UnicodeData) (env : Env) (text : str) :
  should_use_gemini ucd env text = true ->
  is_none (NLP env) && negb (truthy (API_KEY env)) = false.
Proof.
  unfold should_use_gemini. destruct (key_is_usable env) eqn:K; [|discriminate].
  intros _. rewrite (usable_key_is_set _ K). apply andb_false_r.
Qed.

Lemma trace_local_analysis (env : Env) (text : str) :
  remote_attempted (trace (local_analysis env text)) = false.
Proof. unfold local_analysis. destruct (NLP env); reflexivity. Qed.

Lemma remote_attempted_iff_should_use
    (ucd : UnicodeData) (env : Env) (text : str) :
  remote_attempted (trace (answer_text_question ucd env text))
  = should_use_gemini ucd env text.
Proof.
  unfold answer_text_question.
  destruct (should_use_gemini ucd env text) eqn:S.
  - rewrite (early_return_needs_no_key _ _ _ S).
    unfold io_bind, print, call_gemini.
    destruct (negb (startswith _ error_marker)); [reflexivity|].
    destruct (local_analysis env text). reflexivity.
  - destruct (is_none (NLP env) && negb (truthy (API_KEY env)));
      [reflexivity|apply trace_local_analysis].
Qed.

Lemma remote_attempted_first_iff_should_use
    (ucd : UnicodeData) (env : Env) (text : str) :
  remote_attempted_first (trace (answer_text_question ucd env text))
  = should_use_gemini ucd env text.
Proof.
  unfold answer_text_question.
  destruct (should_use_gemini ucd env text) eqn:S.
  - rewrite (early_return_needs_no_key _ _ _ S).
    unfold io_bind, print, call_gemini.
    destruct (negb (startswith _ error_marker)); [reflexivity|].
    destruct (local_analysis env text). reflexivity.
  - destruct (is_none (NLP env) && negb (truthy (API_KEY env)));
      [reflexivity|].
    unfold local_analysis. destruct (NLP env); reflexivity.
Qed.

(** C7 (as amended).  The remote backend is called exactly when the key
    is set and is no placeholder and the text holds a CJK character, or
    holds a digit and is longer than 50, or has more than 7 words; and
    exactly then it is called before the local model, being the first
    call the function makes.  With no usable key nothing is printed and
    nothing is called but the local analysis, whose outcome is returned;
    without a model the outcome is a message. *)
Theorem C7_remote_backend_choice
    (ucd : UnicodeData) (env : Env) (text : str) :
  remote_attempted (trace (answer_text_question ucd env text))
  = key_is_usable env
    && (contains_cjk text
        || (contains_digits ucd text && (50 <? List.length text)%nat)
        || (7 <? List.length (split text))%nat)
  /\ remote_attempted_first (trace (answer_text_question ucd env text))
     = key_is_usable env
       && (contains_cjk text
           || (contains_digits ucd text && (50 <? List.length text)%nat)
           || (7 <? List.length (split text))%nat)
  /\ (key_is_usable env = false ->
      trace (answer_text_question ucd env text)
      = match NLP env with Some _ => [NlpCalled text] | None => [] end
      /\ result (answer_text_question ucd env text)
         = match NLP env with
           | Some analyse => analyse text
           | None =>
               Returns (if truthy (API_KEY env) then nlp_not_loaded_message
                        else nothing_available_message)
           end).
Proof.
  assert (C : should_use_gemini ucd env text
              = key_is_usable env
                && (contains_cjk text
                    || (contains_digits ucd text
                        && (50 <? List.length text)%nat)
                    || (7 <? List.length (split text))%nat)).
  { unfold should_use_gemini, is_long_question.
    destruct (key_is_usable env); [|reflexivity].
    destruct (contains_cjk text); [reflexivity|].
    destruct (contains_digits ucd text && (50 <? List.length text)%nat);
      [reflexivity|].
    destruct (7 <? List.length (split text))%nat; reflexivity. }
  split; [|split].
  - now rewrite remote_attempted_iff_should_use.
  - now rewrite remote_attempted_first_iff_should_use.
  - intros K. unfold answer_text_question, should_use_gemini, local_analysis.
    rewrite K. destruct (NLP env); cbn [is_none andb].
    + split; reflexivity.
    + destruct (truthy (API_KEY env)); split; reflexivity.
Qed.

Lemma C7_remote_backend_choice_witness :
  trace (answer_text_question latin1_only env_placeholder
           (py "What is the capital of France and of Japan, please?"))
  = [NlpCalled (py "What is the capital of France and of Japan, please?")]
  /\ result (answer_text_question latin1_only env_placeholder
               (py "What is the capital of France and of Japan, please?"))
     = Returns [].
Proof.
  apply (proj2 (proj2
           (C7_remote_backend_choice latin1_only env_placeholder
              (py "What is the capital of France and of Japan, please?")))).
  vm_compute. reflexivity.
Defined.

(** C7, counterexample.  With a usable key, a question of three words
    with one CJK character in it, no digit, and not CJK-dominant, is sent
    to the remote backend; the classifier routes it to text. *)
Lemma C7_counterexample :
  remote_attempted
    (trace (answer_text_question latin1_only env_ready (py "What is 中?")))
  = true
  /\ Spec.prefers_remote_spec latin1_only env_ready (py "What is 中?") = false
  /\ Classifier.determine_problem_type latin1_only (py "What is 中?") tt
     = Returns Classifier.Text.
Proof. vm_compute. repeat split. Qed.

(** C8.  When the remote backend is called and answers with the error
    marker, its answer is not returned: after the warning the local
    analysis runs and its outcome is returned, and without a model the
    outcome is the message of line 77, returned and not raised. *)
Theorem C8_remote_failure_falls_back
    (ucd : UnicodeData) (env : Env) (text : str) :
  should_use_gemini ucd env text = true ->
  startswith
    (OcrModule.solve_text_problem_with_gemini (API_KEY env) (exchange env) text)
    error_marker = true ->
  let gemini_answer :=
    OcrModule.solve_text_problem_with_gemini (API_KEY env) (exchange env) text
  in
  trace (answer_text_question ucd env text)
  = [Printed trying_gemini_message; GeminiCalled text;
     Printed (gemini_failed_message gemini_answer)]
    ++ match NLP env with Some _ => [NlpCalled text] | None => [] end
  /\ result (answer_text_question ucd env text)
     = match NLP env with
       | Some analyse => analyse text
       | None => Returns nlp_not_loaded_message
       end
  /\ (NLP env = None ->
      result (answer_text_question ucd env text)
      <> Returns (gemini_solution gemini_answer)).
Proof.
  intros S E gemini_answer. unfold answer_text_question.
  rewrite (early_return_needs_no_key _ _ _ S), S.
  unfold io_bind, print, call_gemini. fold gemini_answer. unfold gemini_answer.
  rewrite E. cbn [negb]. unfold local_analysis.
  destruct (NLP env); cbn [ret trace result fst snd app].
  - repeat split. discriminate.
  - repeat split. intros _. vm_compute. discriminate.
Qed.

Lemma C8_remote_failure_falls_back_witness :
  result (answer_text_question latin1_only env_timeout (py "What is 中?"))
  = Returns nlp_not_loaded_message.
Proof.
  apply (C8_remote_failure_falls_back latin1_only env_timeout
           (py "What is 中?")); vm_compute; reflexivity.
Defined.

End NlpSolverFacts.

(** * Lower-casing and the tested symbols *)

Module LowerFacts.

Import Invariants PyStr Py Classifier PyStrFacts ClassifierFacts.

Local Open Scope N_scope.

Lemma similar_app (s1 t1 s2 t2 : str) :
  similar s1 t1 -> similar s2 t2 -> similar (s1 ++ s2) (t1 ++ t2).
Proof.
  induction 1 as [|c s t Hc _ IH|c run s t Hc Hrun Hall _ IH]; intros H2.
  - exact H2.
  - simpl. apply similar_keep; auto.
  - simpl. rewrite <- app_assoc. apply similar_run; auto.
Qed.

Lemma similar_rev (s t : str) : similar s t -> similar (rev s) (rev t).
Proof.
  induction 1 as [|c s t Hc _ IH|c run s t Hc Hrun Hall _ IH].
  - constructor.
  - simpl. apply similar_app; [exact IH|].
    apply similar_keep; [exact Hc|constructor].
  - simpl. rewrite rev_app_distr. apply similar_app; [exact IH|].
    rewrite <- (app_nil_r (rev run)). apply similar_run.
    + exact Hc.
    + intros E. apply Hrun. rewrite <- (rev_involutive run), E. reflexivity.
    + apply Forall_rev. exact Hall.
    + constructor.
Qed.

Lemma similar_In (s t : str) (d : char) :
  similar s t -> tested d = true -> (In d t <-> In d s).
Proof.
  intros H Hd.
  induction H as [|c s t Hc _ IH|c run s t Hc Hrun Hall _ IH].
  - tauto.
  - simpl. tauto.
  - simpl. rewrite in_app_iff, IH. split.
    + intros [Hin|Hin]; [|now right].
      rewrite Forall_forall in Hall. apply Hall in Hin. congruence.
    + intros [->|Hin]; [congruence|now right].
Qed.

Lemma similar_startswith (prefix : str) :
  Forall (fun d => tested d = true) prefix ->
  forall s t, similar s t -> startswith t prefix = startswith s prefix.
Proof.
  induction 1 as [|q prefix Hq _ IH]; intros s t H; [reflexivity|].
  destruct H as [|c s t Hc H|c run s t Hc Hrun Hall H].
  - reflexivity.
  - simpl. f_equal. now apply IH.
  - destruct run as [|d run]; [congruence|].
    inversion Hall as [|d' run' Hd _]; subst. simpl.
    replace (d =? q) with false
      by (symmetry; apply N.eqb_neq; intros ->; congruence).
    replace (c =? q) with false
      by (symmetry; apply N.eqb_neq; intros ->; congruence).
    reflexivity.
Qed.

Lemma similar_endswith (suffix s t : str) :
  Forall (fun d => tested d = true) suffix ->
  similar s t -> endswith t suffix = endswith s suffix.
Proof.
  intros Hs H. unfold endswith.
  apply similar_startswith; [now apply Forall_rev|now apply similar_rev].
Qed.

Section WithUnicode.

Variable ucd : UnicodeData.
Hypothesis laws : Spec.lower_keeps_symbols ucd.

Lemma tested_cases (c : char) :
  tested c = true ->
  c = 176 \/ c = 64 \/ c = 58 \/ c = 36 \/ c = 63 \/ c = 41.
Proof.
  unfold tested, char_mem. intros H. apply existsb_exists in H.
  destruct H as [d [Hd E]]. apply N.eqb_eq in E. subst d.
  change Spec.tested_symbols with [176; 64; 58; 36; 63; 41] in Hd.
  cbn [In] in Hd. intuition.
Qed.

Lemma tested_is_latin1 (c : char) : tested c = true -> is_latin1 c = true.
Proof.
  intros H. apply tested_cases in H.
  intuition (subst; reflexivity).
Qed.

Lemma latin1_isupper_range (c : char) :
  latin1_isupper c = true -> 65 <= c <= 90 \/ 192 <= c <= 222.
Proof.
  unfold latin1_isupper, ascii_isupper. intros U.
  repeat first
    [ apply orb_prop in U; destruct U as [U|U]
    | apply andb_prop in U; destruct U as [U1 U2];
      apply N.leb_le in U1; apply N.leb_le in U2 ]; lia.
Qed.

Lemma latin1_lower_tested (c : char) :
  tested (latin1_lower c) = tested c.
Proof.
  unfold latin1_lower. destruct (latin1_isupper c) eqn:U; [|reflexivity].
  apply latin1_isupper_range in U.
  transitivity false; [|symmetry]; apply not_true_is_false; intros H;
    apply tested_cases in H; lia.
Qed.

Lemma lower_char_tested (before : str) (c : char) (after : str) :
  tested c = true -> lower_char ucd before c after = [c].
Proof.
  intros T. unfold lower_char. rewrite (tested_is_latin1 _ T).
  f_equal. unfold latin1_lower.
  destruct (latin1_isupper c) eqn:U; [|reflexivity].
  apply latin1_isupper_range in U. apply tested_cases in T. lia.
Qed.

Lemma lower_char_untested (before : str) (c : char) (after : str) :
  tested c = false ->
  lower_char ucd before c after <> []
  /\ Forall (fun d => tested d = false) (lower_char ucd before c after).
Proof.
  intros T. unfold lower_char. destruct (is_latin1 c) eqn:L.
  - split; [discriminate|]. constructor; [|constructor].
    now rewrite latin1_lower_tested.
  - destruct (laws before c after L) as [Hne Hall]. split; [exact Hne|].
    apply Forall_forall. exact Hall.
Qed.

Lemma similar_lower_from (before s : str) : similar s (lower_from ucd before s).
Proof.
  revert before. induction s as [|c s IH]; intros before; simpl.
  - constructor.
  - destruct (tested c) eqn:T.
    + rewrite (@lower_char_tested before c s T). simpl. now apply similar_keep.
    + destruct (@lower_char_untested before c s T) as [Hne Hall].
      now apply similar_run.
Qed.

Lemma similar_lower (s : str) : similar s (lower ucd s).
Proof. apply similar_lower_from. Qed.

Lemma contains_symbol_lower (s : str) (d : char) :
  tested d = true -> contains (lower ucd s) [d] = contains s [d].
Proof.
  intros Hd. apply eq_true_iff_eq. rewrite !contains_char_In.
  apply similar_In; [apply similar_lower|exact Hd].
Qed.

(** Lower-casing neither adds nor removes a forbidden symbol. *)
Lemma has_very_bad_chars_lower (s : str) :
  has_very_bad_chars (lower ucd s) = has_very_bad_chars s.
Proof.
  unfold has_very_bad_chars.
  change very_bad_chars with [[176]; [64]; [58]; [36]].
  cbn [existsb]. now rewrite !contains_symbol_lower.
Qed.

Lemma endswith_lower (s suffix : str) :
  Forall (fun d => tested d = true) suffix ->
  endswith (lower ucd s) suffix = endswith s suffix.
Proof. intros H. apply similar_endswith; [exact H|apply similar_lower]. Qed.

(** Lower-casing keeps a final question mark, alone or before a closing
    parenthesis. *)
Lemma ends_with_question_variant_lower (s : str) :
  ends_with_question_variant (lower ucd s) = ends_with_question_variant s.
Proof.
  unfold ends_with_question_variant.
  rewrite !endswith_lower; [reflexivity| |];
    change (py "?)") with [63; 41]; change (py "?") with [63];
    repeat constructor.
Qed.

End WithUnicode.

End LowerFacts.

(** * The sample database *)

Module SampleFacts.

Import Invariants PyStr Py Classifier PyStrFacts ClassifierFacts LowerFacts.

Local Open Scope N_scope.

(** Decides the comparisons of the goal one by one, dropping the cases
    that contradict the context. *)
Ltac decide_comparisons :=
  repeat match goal with
    | |- context [N.leb ?a ?b] => destruct (N.leb_spec a b); try lia
    | |- context [N.eqb ?a ?b] => destruct (N.eqb_spec a b); try lia
    end;
  cbn [andb orb negb]; try reflexivity; try lia.

Lemma fullwidth_digit_range (c : char) :
  is_fullwidth_digit c = true -> 65296 <= c <= 65305.
Proof.
  unfold is_fullwidth_digit. intros H. apply andb_prop in H.
  destruct H as [H1 H2]. apply N.leb_le in H1. apply N.leb_le in H2. lia.
Qed.

Lemma sample_keeps_symbols : Spec.lower_keeps_symbols sample_ucd.
Proof.
  intros before c after L. unfold is_latin1 in L. apply N.ltb_ge in L.
  cbn [lower_ext sample_ucd].
  assert (T : forall d,
             d = 105 \/ d = 775 \/ d = 962 \/ d = 963 \/ d = c ->
             char_mem d Spec.tested_symbols = false).
  { intros d Hd. apply not_true_is_false. intros H.
    apply tested_cases in H. lia. }
  destruct (c =? 304);
    [|destruct (c =? 931); [destruct (final_sigma before after)|]];
    (split; [discriminate|]); intros d Hd; apply T; cbn [In] in Hd;
    intuition.
Qed.

Lemma sample_decimals : Spec.decimals_are_plain sample_ucd.
Proof.
  intros c _ D. cbn [isdecimal_ext sample_ucd] in D.
  pose proof (fullwidth_digit_range c D) as R.
  cbn [isdigit_ext isalpha_ext lower_ext sample_ucd].
  repeat split.
  - exact D.
  - decide_comparisons.
  - unfold char_isspace. decide_comparisons.
  - unfold _is_cjk. decide_comparisons.
  - intros before after. decide_comparisons.
Qed.

Lemma sample_spaces : Spec.spaces_are_plain sample_ucd.
Proof.
  intros c _ S. cbn [isalpha_ext lower_ext sample_ucd].
  assert (N : c <> 304 /\ c <> 931 /\ c <> 962 /\ c <> 963)
    by (repeat split; intros ->; discriminate).
  split; [|intros before after]; decide_comparisons.
Qed.

End SampleFacts.

(** * Forbidden symbols *)

Module ForbiddenSymbolFacts.

Import Invariants PyStr Py Classifier PyStrFacts ClassifierFacts LowerFacts SampleFacts.

Local Open Scope N_scope.

Lemma latin1_only_keeps_symbols : Spec.lower_keeps_symbols latin1_only.
Proof.
  intros before c after L. split; [discriminate|].
  intros d [<-|[]]. apply not_true_is_false. intros T.
  apply tested_is_latin1 in T. congruence.
Qed.

(** C5 (as amended).  A text that holds a forbidden symbol, is not
    CJK-dominant, does not end in [?] or [?)] and whose first word in
    lower case is no question starter is classified as visual. *)
Theorem C5_forbidden_symbol_is_visual
    (ucd : UnicodeData) (Image : Type) (text : str) (img : Image) :
  Spec.lower_keeps_symbols ucd ->
  Spec.is_blank text = false ->
  has_very_bad_chars text = true ->
  cjk_dominant text = Returns false ->
  endswith text (py "?") = false ->
  endswith text (py "?)") = false ->
  mem (first_word_of (lower ucd text)) question_starters = false ->
  determine_problem_type ucd text img = Returns Visual.
Proof.
  intros laws Hblank Hbad Hcjk Hq Hqp Hfirst.
  rewrite determine_problem_type_unfold, Hblank.
  rewrite cjk_dominant_total in Hcjk. injection Hcjk as Hcjk. rewrite Hcjk.
  rewrite (has_very_bad_chars_lower laws), Hbad.
  unfold is_question_like_despite_bad_chars.
  rewrite (ends_with_question_variant_lower laws).
  unfold ends_with_question_variant. now rewrite Hq, Hqp, Hfirst.
Qed.

Lemma C5_forbidden_symbol_is_visual_witness :
  determine_problem_type sample_ucd (py "İstanbul: 20°") tt = Returns Visual.
Proof.
  apply C5_forbidden_symbol_is_visual;
    [exact sample_keeps_symbols | vm_compute; reflexivity ..].
Defined.

(** C5, counterexample.  A CJK-dominant text with a colon in it, no
    question mark at its end and no question starter as its first word is
    classified as text: the script rule comes first. *)
Lemma C5_counterexample :
  Spec.is_blank (py "圖片中有一個問題:") = false
  /\ has_very_bad_chars (py "圖片中有一個問題:") = true
  /\ endswith (py "圖片中有一個問題:") (py "?") = false
  /\ endswith (py "圖片中有一個問題:") (py "?)") = false
  /\ mem (first_word_of (lower latin1_only (py "圖片中有一個問題:")))
       question_starters = false
  /\ determine_problem_type latin1_only (py "圖片中有一個問題:") tt
     = Returns Text
  /\ Text <> Visual.
Proof. vm_compute. repeat split; discriminate. Qed.

End ForbiddenSymbolFacts.

(** * Arithmetic texts *)

Module ArithmeticFacts.

Import Invariants PyStr Py Classifier PyStrFacts ClassifierFacts SampleFacts.

Local Open Scope N_scope.

(** ** Checking a property on all of Latin-1 *)

Lemma latin1_forall (P : char -> bool) :
  forallb P (map N.of_nat (seq 0 256)) = true ->
  forall c, is_latin1 c = true -> P c = true.
Proof.
  intros H c L. rewrite forallb_forall in H. apply H.
  unfold is_latin1 in L. apply N.ltb_lt in L.
  rewrite <- (N2Nat.id c). apply in_map. apply in_seq. lia.
Qed.

Lemma char_mem_In (c : char) (l : str) : char_mem c l = true <-> In c l.
Proof.
  unfold char_mem. rewrite existsb_exists. split.
  - intros [d [Hd E]]. apply N.eqb_eq in E. now subst.
  - intros H. exists c. split; [exact H|apply N.eqb_refl].
Qed.

Lemma char_mem_latin1 (c : char) (l : str) :
  forallb is_latin1 l = true -> is_latin1 c = false -> char_mem c l = false.
Proof.
  intros Hl Hc. apply not_true_is_false. intros H.
  apply char_mem_In in H. rewrite forallb_forall in Hl.
  apply Hl in H. congruence.
Qed.

(** ** Prefixes, substrings and words are made of the text's characters *)

Lemma eqb_eq (s t : str) : eqb s t = true -> s = t.
Proof.
  revert t. induction s as [|c s IH]; intros [|d t] H; try discriminate.
  - reflexivity.
  - simpl in H. apply andb_prop in H. destruct H as [E H].
    apply N.eqb_eq in E. subst. f_equal. now apply IH.
Qed.

Lemma startswith_incl (prefix s : str) :
  startswith s prefix = true -> incl prefix s.
Proof.
  revert s. induction prefix as [|p prefix IH]; intros s H.
  - intros x [].
  - destruct s as [|c s]; [discriminate|]. simpl in H.
    apply andb_prop in H. destruct H as [E H]. apply N.eqb_eq in E. subst.
    intros x [<-|Hx]; [now left|right; now apply (IH s)].
Qed.

Lemma endswith_incl (s suffix : str) :
  endswith s suffix = true -> incl suffix s.
Proof.
  unfold endswith. intros H x Hx. apply in_rev.
  apply (startswith_incl _ _ H). now apply in_rev in Hx.
Qed.

Lemma contains_incl (s sub : str) : contains s sub = true -> incl sub s.
Proof.
  induction s as [|c s IH]; simpl; intros H.
  - rewrite orb_false_r in H. now apply startswith_incl.
  - apply orb_prop in H. destruct H as [H|H].
    + now apply startswith_incl.
    + intros x Hx. right. now apply IH.
Qed.

Lemma split_from_incl (s cur w : str) :
  In w (split_from cur s) -> incl w (cur ++ s).
Proof.
  revert cur. induction s as [|c s IH]; intros cur H; simpl in H.
  - destruct cur; [destruct H|]. destruct H as [<-|[]].
    rewrite app_nil_r. apply incl_refl.
  - destruct (char_isspace c).
    + assert (K : In w (split_from [] s) -> incl w (cur ++ c :: s)).
      { intros K x Hx. apply in_or_app. right. right.
        exact (IH [] K x Hx). }
      destruct cur; [exact (K H)|].
      destruct H as [<-|H]; [|exact (K H)].
      intros x Hx. apply in_or_app. now left.
    + apply IH in H. now rewrite <- app_assoc in H.
Qed.

Lemma first_word_of_incl (s : str) : incl (first_word_of s) s.
Proof.
  unfold first_word_of. destruct (split s) as [|w ws] eqn:E.
  - intros x [].
  - apply (split_from_incl s [] w). fold (split s). rewrite E. now left.
Qed.

(** ** Texts without lower-case letters *)

Lemma incl_has_lower (s t : str) :
  incl s t -> has_lower t = false -> has_lower s = false.
Proof.
  intros Hi Ht. apply not_true_is_false. intros Hs.
  unfold has_lower in *. apply existsb_exists in Hs.
  destruct Hs as [c [Hc L]].
  assert (E : existsb ascii_islower t = true)
    by (apply existsb_exists; exists c; split; [now apply Hi|exact L]).
  congruence.
Qed.

Lemma mem_no_lower (w : str) (words : list str) :
  forallb has_lower words = true -> has_lower w = false ->
  mem w words = false.
Proof.
  intros Hw Hl. apply not_true_is_false. intros H.
  unfold mem in H. apply existsb_exists in H. destruct H as [x [Hx E]].
  apply eqb_eq in E. subst x. rewrite forallb_forall in Hw.
  apply Hw in Hx. congruence.
Qed.

Lemma contains_no_lower (s : str) (phrases : list str) :
  forallb has_lower phrases = true -> has_lower s = false ->
  existsb (fun phrase => contains s phrase) phrases = false.
Proof.
  intros Hp Hl. apply not_true_is_false. intros H.
  apply existsb_exists in H. destruct H as [x [Hx E]].
  apply contains_incl in E. rewrite forallb_forall in Hp. apply Hp in Hx.
  rewrite (incl_has_lower E Hl) in Hx. discriminate.
Qed.

(** ** Counting *)

Lemma count_if_zero (f : char -> bool) (s : str) :
  (forall c, In c s -> f c = false) -> count_if f s = O.
Proof.
  unfold count_if. induction s as [|c s IH]; intros H; [reflexivity|].
  simpl. rewrite (H c (or_introl eq_refl)). apply IH.
  intros d Hd. apply H. now right.
Qed.

Lemma existsb_false (A : Type) (f : A -> bool) (l : list A) :
  (forall x, In x l -> f x = false) -> existsb f l = false.
Proof.
  intros H. apply not_true_is_false. intros E.
  apply existsb_exists in E. destruct E as [x [Hx E]].
  rewrite (H x Hx) in E. discriminate.
Qed.

Lemma nothing_exceeds_half (n : nat) :
  gt (of_count 0) (of_count n * (1 # 2)) = false.
Proof.
  unfold gt. apply negb_false_iff. apply Qle_bool_iff.
  unfold Qle, of_count, inject_Z, Qmult. simpl. lia.
Qed.

Lemma zero_ratio_not_above_half (p : positive) : gt (0 # p) (1 # 2) = false.
Proof.
  unfold gt. apply negb_false_iff. apply Qle_bool_iff.
  unfold Qle. simpl. lia.
Qed.

(** ** The characters of the pattern *)

Section WithUnicode.

Variable ucd : UnicodeData.
Hypothesis decimals : Spec.decimals_are_plain ucd.
Hypothesis spaces : Spec.spaces_are_plain ucd.

Lemma class_latin1 (c : char) :
  is_latin1 c = true ->
  implb (Spec.arithmetic_class ucd c) (plain_latin1 c) = true.
Proof.
  revert c. apply (latin1_forall
    (fun c => implb (Spec.arithmetic_class ucd c) (plain_latin1 c))).
  vm_compute. reflexivity.
Qed.

Lemma class_is_plain (c : char) :
  Spec.arithmetic_class ucd c = true -> plain ucd c.
Proof.
  intros H. destruct (is_latin1 c) eqn:L.
  - pose proof (class_latin1 c L) as P. rewrite H in P. cbn [implb] in P.
    unfold plain_latin1 in P.
    repeat (apply andb_prop in P; let Q := fresh "Q" in destruct P as [P Q]).
    rewrite negb_true_iff in *.
    constructor; unfold lower_char, char_isalpha, char_isdecimal, char_isdigit;
      rewrite ?L; auto.
    + intros _ _. unfold latin1_lower. now rewrite P.
    + rewrite Q1. apply andb_false_r.
    + intros D. rewrite D in Q. cbn [implb] in Q.
      apply andb_prop in Q. destruct Q as [Q Q']. split; [exact Q|].
      now apply negb_true_iff.
  - assert (Hlow : ascii_islower c = false).
    { unfold is_latin1 in L. apply N.ltb_ge in L. unfold ascii_islower.
      apply andb_false_iff. right. apply N.leb_gt. lia. }
    assert (Hsym : char_mem c (py "°@:$?=") = false)
      by (apply char_mem_latin1; [vm_compute; reflexivity|exact L]).
    assert (Hpunct : char_mem c (py ".+-*/^()") = false)
      by (apply char_mem_latin1; [vm_compute; reflexivity|exact L]).
    unfold Spec.arithmetic_class, char_isdecimal in H.
    rewrite L, Hpunct, orb_false_r in H.
    destruct (isdecimal_ext ucd c) eqn:D.
    + destruct (decimals c L D) as [Hd [Ha [Hs [Hc Hl]]]].
      constructor; unfold lower_char, char_isalpha, char_isdecimal,
        char_isdigit; rewrite ?L; auto.
      rewrite Hc. apply andb_false_r.
    + cbn [orb] in H. destruct (spaces c L H) as [Ha Hl].
      constructor; unfold lower_char, char_isalpha, char_isdecimal,
        char_isdigit; rewrite ?L; auto.
      * now rewrite H.
      * congruence.
Qed.

Lemma lower_from_plain (before s : str) :
  Forall (plain ucd) s -> lower_from ucd before s = s.
Proof.
  intros H. revert before. induction H as [|c s Hc _ IH]; intros before.
  - reflexivity.
  - simpl. rewrite (plain_lower Hc). simpl. f_equal. apply IH.
Qed.

Section OnText.

Variable text : str.
Hypothesis Hmatch : Spec.matches_arithmetic_pattern ucd text = true.
Hypothesis Hdigit : exists c, In c text /\ char_isdecimal ucd c = true.
Hypothesis Hop : exists c, In c text /\ In c (py "+-*/^").

Lemma text_plain : Forall (plain ucd) text.
Proof.
  unfold Spec.matches_arithmetic_pattern in Hmatch.
  apply andb_prop in Hmatch. destruct Hmatch as [_ H].
  rewrite forallb_forall in H. apply Forall_forall.
  intros c Hc. apply class_is_plain. now apply H.
Qed.

Lemma text_plain_In (c : char) : In c text -> plain ucd c.
Proof. pose proof text_plain as H. rewrite Forall_forall in H. apply H. Qed.

Lemma text_lower : lower ucd text = text.
Proof. apply lower_from_plain, text_plain. Qed.

Lemma text_not_blank : Spec.is_blank text = false.
Proof.
  destruct Hdigit as [c [Hc D]].
  destruct (plain_digit (text_plain_In c Hc) D) as [_ Hs].
  unfold Spec.is_blank, isspace. destruct text as [|d s]; [destruct Hc|].
  cbn [truthy negb orb andb]. apply not_true_is_false. intros F.
  rewrite forallb_forall in F. rewrite (F c Hc) in Hs. discriminate.
Qed.

Lemma text_has_digits : has_digits ucd text = true.
Proof.
  destruct Hdigit as [c [Hc D]]. unfold has_digits.
  apply existsb_exists. exists c. split; [exact Hc|].
  now destruct (plain_digit (text_plain_In c Hc) D).
Qed.

Lemma text_has_operators : has_math_operators text = true.
Proof.
  destruct Hop as [c [Hc O]]. unfold has_math_operators, chars_of.
  apply existsb_exists. exists [c]. split.
  - apply in_map_iff. exists c. now split.
  - now apply contains_char_In.
Qed.

Lemma text_no_cjk : cjk_char_count text = O.
Proof.
  rewrite cjk_char_count_count. apply count_if_zero.
  intros c Hc. exact (plain_cjk (text_plain_In c Hc)).
Qed.

Lemma text_not_dominant :
  (5 <? total_non_whitespace_chars text)%nat
  && gt (Spec.cjk_ratio text) (1 # 2) = false.
Proof.
  apply andb_false_iff. right. unfold Spec.cjk_ratio. rewrite text_no_cjk.
  destruct (total_non_whitespace_chars text).
  - reflexivity.
  - apply zero_ratio_not_above_half.
Qed.

Lemma text_no_symbol (d : char) :
  In d (py "°@:$?=") -> contains text [d] = false.
Proof.
  intros Hd. apply not_true_is_false. intros H.
  apply contains_char_In in H.
  pose proof (plain_symbol (text_plain_In d H)) as S.
  apply char_mem_In in Hd. congruence.
Qed.

Lemma text_no_bad_chars : has_very_bad_chars text = false.
Proof.
  unfold has_very_bad_chars.
  change very_bad_chars with [[176]; [64]; [58]; [36]].
  cbn [existsb].
  rewrite !text_no_symbol; [reflexivity| | | |]; vm_compute; tauto.
Qed.

Lemma text_no_equals : has_equals_sign text = false.
Proof.
  unfold has_equals_sign. change (py "=") with [61].
  apply text_no_symbol. vm_compute. tauto.
Qed.

Lemma text_no_question_end : ends_with_question_variant text = false.
Proof.
  assert (Q : ~ In 63 text).
  { intros H. apply contains_char_In in H.
    rewrite text_no_symbol in H; [discriminate|vm_compute; tauto]. }
  unfold ends_with_question_variant.
  destruct (endswith text (py "?")) eqn:E1.
  - exfalso. apply Q. apply (endswith_incl _ _ E1). now left.
  - destruct (endswith text (py "?)")) eqn:E2; [|reflexivity].
    exfalso. apply Q. apply (endswith_incl _ _ E2). now left.
Qed.

Lemma text_no_lower : has_lower text = false.
Proof.
  apply existsb_false. intros c Hc.
  exact (plain_islower (text_plain_In c Hc)).
Qed.

Lemma text_first_word_no_lower : has_lower (first_word_of text) = false.
Proof. exact (incl_has_lower (first_word_of_incl text) text_no_lower). Qed.

Lemma text_no_alpha : num_alpha_symbols ucd text = O.
Proof.
  apply count_if_zero. intros c Hc. exact (plain_alpha (text_plain_In c Hc)).
Qed.

Lemma text_classify_clean : classify_clean ucd text text = Math.
Proof.
  assert (Hstart : mem (first_word_of text) question_starters = false)
    by (apply mem_no_lower;
        [vm_compute; reflexivity|exact text_first_word_no_lower]).
  assert (Hsolve : eqb (first_word_of text) (py "solve") = false).
  { apply not_true_is_false. intros E. apply eqb_eq in E.
    pose proof text_first_word_no_lower as N. rewrite E in N.
    vm_compute in N. discriminate. }
  unfold classify_clean.
  replace (is_definitely_question text) with false
    by (unfold is_definitely_question;
        now rewrite text_no_question_end, Hstart).
  replace (explicit_phrase_rule text) with false
    by (unfold explicit_phrase_rule;
        rewrite contains_no_lower;
        [reflexivity|vm_compute; reflexivity|exact text_no_lower]).
  replace (structural_math_rule ucd text text) with false
    by (unfold structural_math_rule; now rewrite text_no_equals, Hsolve).
  replace (alphabetic_dominance ucd text) with false
    by (unfold alphabetic_dominance;
        now rewrite text_no_alpha, nothing_exceeds_half).
  replace (math_recheck ucd text text) with true
    by (unfold math_recheck;
        now rewrite text_has_operators, text_has_digits, text_no_bad_chars).
  rewrite text_has_digits. cbn [orb].
  destruct (pure_arithmetic_rule ucd text text); [reflexivity|].
  destruct (List.length (strip text) <? 15)%nat; reflexivity.
Qed.

End OnText.

End WithUnicode.

Lemma latin1_only_decimals : Spec.decimals_are_plain latin1_only.
Proof. intros c _ D. discriminate. Qed.

Lemma latin1_only_spaces : Spec.spaces_are_plain latin1_only.
Proof. intros c _ _. split; reflexivity. Qed.

(** C6.  A text made of decimal digits, dots, the operators [+ - * / ^],
    parentheses and white space only, with at least one digit and one
    operator in it, is classified as math. *)
Theorem C6_arithmetic_is_math
    (ucd : UnicodeData) (Image : Type) (text : str) (img : Image) :
  Spec.decimals_are_plain ucd ->
  Spec.spaces_are_plain ucd ->
  Spec.matches_arithmetic_pattern ucd text = true ->
  (exists c, In c text /\ char_isdecimal ucd c = true) ->
  (exists c, In c text /\ In c (py "+-*/^")) ->
  determine_problem_type ucd text img = Returns Math.
Proof.
  intros decimals spaces Hmatch Hdigit Hop.
  rewrite determine_problem_type_unfold.
  rewrite (text_not_blank decimals spaces text Hmatch Hdigit Hop).
  rewrite (text_not_dominant decimals spaces text Hmatch).
  rewrite (text_lower decimals spaces text Hmatch).
  rewrite (text_no_bad_chars decimals spaces text Hmatch).
  now rewrite (text_classify_clean decimals spaces text Hmatch Hdigit Hop).
Qed.

Lemma C6_arithmetic_is_math_witness :
  determine_problem_type sample_ucd (py "(１２.5 + 7) * ３ - 48 / 6 ^ 2") tt
  = Returns Math.
Proof.
  apply C6_arithmetic_is_math.
  - exact sample_decimals.
  - exact sample_spaces.
  - vm_compute. reflexivity.
  - exists 65297%N. split; [vm_compute; tauto|reflexivity].
  - exists 43%N. split; vm_compute; tauto.
Defined.

End ArithmeticFacts.

(** * The string handed to the solver *)

Module NormalizerFacts.

Import PyStr PyStrFacts MathSolver MathSolverFacts Guards.

Local Open Scope N_scope.

(** ** Its alphabet *)

Lemma replace_removes (old : char) (new s : str) :
  ~ In old new -> ~ In old (replace old new s).
Proof.
  intros Hnew. induction s as [|c s IH]; [intros []|].
  unfold replace in *. simpl. rewrite in_app_iff. intros [H|H]; [|tauto].
  destruct (N.eqb_spec c old) as [->|Hne]; [tauto|].
  destruct H as [->|[]]. congruence.
Qed.

Lemma in_remove_whitespace (s : str) (c : char) :
  In c (remove_whitespace s) <-> In c s /\ char_isspace c = false.
Proof.
  unfold remove_whitespace. rewrite join_split, filter_In.
  now rewrite negb_true_iff.
Qed.

(** X3.  The string handed to the solver holds no white space, no
    equality sign and no caret, whatever the raw text. *)
Theorem normalize_alphabet (raw : str) (c : char) :
  In c (normalize raw) ->
  char_isspace c = false /\ c <> N_of_ascii "=" /\ c <> N_of_ascii "^".
Proof.
  unfold normalize. intros H. apply in_remove_whitespace in H.
  destruct H as [H Hs]. split; [exact Hs|]. split; intros ->.
  - unfold caret_to_power in H. apply in_replace in H.
    destruct H as [H|H]; [vm_compute in H; intuition discriminate|].
    unfold equality_to_zero in H. apply in_app_or in H.
    destruct H as [H|H]; [|vm_compute in H; intuition discriminate].
    revert H. apply replace_removes. vm_compute. intuition discriminate.
  - revert H. apply replace_removes. vm_compute. intuition discriminate.
Qed.

Lemma normalize_alphabet_witness :
  char_isspace 42 = false /\ 42 <> N_of_ascii "=" /\ 42 <> N_of_ascii "^".
Proof.
  apply (@normalize_alphabet (py "2 x ^ 2 = 8") 42).
  vm_compute. tauto.
Defined.

(** ** Explicit multiplication *)

Lemma starred_from_weaken (b : bool) (s : str) :
  starred_from false s = true -> starred_from b s = true.
Proof.
  destruct s as [|c s]; [reflexivity|]. simpl.
  destruct (is_variable c); [discriminate|]. now destruct b.
Qed.

Lemma starred_from_app_free (b : bool) (s t : str) :
  forallb (fun c => negb (is_variable c)) s = true ->
  starred_from false t = true ->
  starred_from b (s ++ t) = true.
Proof.
  revert b. induction s as [|c s IH]; intros b Hs Ht.
  - now apply starred_from_weaken.
  - simpl in *. apply andb_prop in Hs. destruct Hs as [Hc Hs].
    apply negb_true_iff in Hc. rewrite Hc. simpl. now apply IH.
Qed.

(** A substitution that leaves the asterisk and the variables alone and
    writes no variable keeps every variable behind its asterisk. *)
Lemma starred_from_flat_map (g : char -> str) :
  (forall c, is_variable c = true \/ c = 42 -> g c = [c]) ->
  (forall c, is_variable c = false ->
             forallb (fun d => negb (is_variable d)) (g c) = true) ->
  forall s b, starred_from b s = true -> starred_from b (flat_map g s) = true.
Proof.
  intros Hid Hfree. induction s as [|c s IH]; intros b H; [reflexivity|].
  simpl in H. apply andb_prop in H. destruct H as [Hc Hs]. simpl.
  destruct (is_variable c) eqn:V.
  - rewrite (Hid c (or_introl V)). simpl. rewrite V, Hc. simpl.
    now apply IH.
  - destruct (N.eqb_spec c 42) as [->|Hne].
    + rewrite (Hid 42 (or_intror eq_refl)). simpl. now apply IH.
    + apply starred_from_app_free; [now apply Hfree|now apply IH].
Qed.

Lemma starred_from_replace (old : char) (new s : str) (b : bool) :
  is_variable old = false -> old <> 42 ->
  forallb (fun d => negb (is_variable d)) new = true ->
  starred_from b s = true -> starred_from b (replace old new s) = true.
Proof.
  intros Hold Hstar Hnew. unfold replace. apply starred_from_flat_map.
  - intros c [V| ->].
    + destruct (N.eqb_spec c old) as [->|_]; [congruence|reflexivity].
    + destruct (N.eqb_spec 42 old) as [E|_]; [congruence|reflexivity].
  - intros c V. destruct (c =? old); [exact Hnew|]. simpl. now rewrite V.
Qed.

Lemma insert_multiplication_cons (c : char) (s : str) :
  insert_multiplication (c :: s)
  = (if is_variable c then [42; c] else [c]) ++ insert_multiplication s.
Proof.
  change (c :: s) with ([c] ++ s). rewrite insert_multiplication_app.
  f_equal. unfold insert_multiplication, replace, is_variable. simpl.
  destruct (N.eqb_spec c 120) as [->|Hx]; [reflexivity|]. simpl.
  destruct (N.eqb_spec c 88) as [->|HX]; reflexivity.
Qed.

Lemma starred_from_insert_multiplication (s : str) (b : bool) :
  starred_from b (insert_multiplication s) = true.
Proof.
  revert b. induction s as [|c s IH]; intros b; [reflexivity|].
  rewrite insert_multiplication_cons. destruct (is_variable c) eqn:V.
  - simpl. rewrite V. simpl. apply IH.
  - simpl. rewrite V. simpl. apply IH.
Qed.

Lemma starred_from_filter (f : char -> bool) (s : str) (b : bool) :
  (forall c, is_variable c = true \/ c = 42 -> f c = true) ->
  starred_from b s = true -> starred_from b (filter f s) = true.
Proof.
  intros Hf H.
  assert (E : filter f s = flat_map (fun c => if f c then [c] else []) s).
  { clear. induction s as [|c s IH]; [reflexivity|]. simpl.
    destruct (f c); simpl; now rewrite IH. }
  rewrite E. apply starred_from_flat_map; [| |exact H].
  - intros c Hc. now rewrite (Hf c Hc).
  - intros c V. destruct (f c); [|reflexivity]. simpl. now rewrite V.
Qed.

Lemma starred_normalize (raw : str) : starred_from false (normalize raw) = true.
Proof.
  unfold normalize, remove_whitespace. rewrite join_split.
  apply starred_from_filter.
  { intros c [V| ->]; [|reflexivity]. unfold is_variable in V.
    apply orb_prop in V. destruct V as [V|V]; apply N.eqb_eq in V; now subst. }
  unfold caret_to_power. apply starred_from_replace; try reflexivity;
    try discriminate.
  unfold equality_to_zero.
  assert (A : forall s b, starred_from b s = true ->
                          starred_from b (s ++ py ")") = true).
  { induction s as [|c s IH]; intros b H; [reflexivity|].
    simpl in *. apply andb_prop in H. destruct H as [Hc Hs].
    rewrite Hc. simpl. now apply IH. }
  apply A. apply starred_from_replace; try reflexivity; try discriminate.
  apply starred_from_insert_multiplication.
Qed.

Lemma starred_from_split (b : bool) (before : str) (c : char) (after : str) :
  starred_from b (before ++ c :: after) = true ->
  is_variable c = true ->
  (before = [] /\ b = true) \/ exists before', before = before' ++ [42].
Proof.
  revert b. induction before as [|d before IH]; intros b H V.
  - left. simpl in H. rewrite V in H. apply andb_prop in H. now split.
  - right. simpl in H. apply andb_prop in H. destruct H as [_ H].
    destruct (IH _ H V) as [[-> E]|[before' ->]].
    + apply N.eqb_eq in E. subst d. now exists [].
    + now exists (d :: before').
Qed.

(** X4.  In the string handed to the solver every [x] and every [X] stands
    right after an asterisk. *)
Theorem normalize_explicit_multiplication
    (raw before : str) (c : char) (after : str) :
  normalize raw = before ++ c :: after ->
  c = N_of_ascii "x" \/ c = N_of_ascii "X" ->
  exists before', before = before' ++ [N_of_ascii "*"].
Proof.
  intros E V. pose proof (starred_normalize raw) as H. rewrite E in H.
  destruct (@starred_from_split false before c after H) as [[_ F]|K].
  - destruct V as [-> | ->]; reflexivity.
  - discriminate.
  - exact K.
Qed.

Lemma normalize_explicit_multiplication_witness :
  exists before', py "3*" = before' ++ [N_of_ascii "*"].
Proof.
  apply (@normalize_explicit_multiplication (py "3x X = 1") (py "3*")
           (N_of_ascii "x") (py "*X-(1)")).
  - vm_compute. reflexivity.
  - left. reflexivity.
Defined.

(** ** Parentheses *)

Lemma occurrences_app (c : char) (s t : str) :
  occurrences c (s ++ t) = (occurrences c s + occurrences c t)%nat.
Proof.
  unfold occurrences, Classifier.count_if.
  now rewrite filter_app, length_app.
Qed.

Lemma occurrences_cons (c d : char) (s : str) :
  occurrences c (d :: s)
  = ((if N.eqb c d then 1 else 0) + occurrences c s)%nat.
Proof.
  unfold occurrences, Classifier.count_if. simpl. now destruct (c =? d).
Qed.

Lemma occurrences_replace (d old : char) (new s : str) :
  occurrences d (replace old new s)
  = ((if N.eqb d old then 0 else occurrences d s)
     + occurrences old s * occurrences d new)%nat.
Proof.
  induction s as [|c s IH].
  - simpl. now destruct (d =? old).
  - change (replace old new (c :: s))
      with ((if c =? old then new else [c]) ++ replace old new s).
    rewrite occurrences_app, IH, !occurrences_cons.
    destruct (N.eqb_spec c old) as [->|Hc].
    + rewrite N.eqb_refl. destruct (d =? old); lia.
    + destruct (N.eqb_spec old c) as [E|_]; [congruence|].
      rewrite occurrences_cons. change (occurrences d []) with O.
      destruct (N.eqb_spec d old) as [->|Hd].
      * destruct (N.eqb_spec old c); [congruence|]. lia.
      * lia.
Qed.

Lemma occurrences_remove_whitespace (d : char) (s : str) :
  char_isspace d = false ->
  occurrences d (remove_whitespace s) = occurrences d s.
Proof.
  intros Hd. unfold remove_whitespace. rewrite join_split.
  unfold occurrences, Classifier.count_if. f_equal.
  induction s as [|c s IH]; [reflexivity|]. simpl.
  destruct (char_isspace c) eqn:S; simpl.
  - destruct (N.eqb_spec d c) as [->|_]; [congruence|exact IH].
  - destruct (d =? c); simpl; now rewrite IH.
Qed.

(** X5.  The preprocessing adds one opening parenthesis for each equality
    sign of the raw text and exactly one closing parenthesis; so a raw text
    with as many opening as closing parentheses comes out balanced exactly
    when it has one equality sign. *)
Theorem normalize_parentheses (raw : str) :
  occurrences (N_of_ascii "(") (normalize raw)
  = (occurrences (N_of_ascii "(") raw + occurrences (N_of_ascii "=") raw)%nat
  /\ occurrences (N_of_ascii ")") (normalize raw)
     = (occurrences (N_of_ascii ")") raw + 1)%nat
  /\ (occurrences (N_of_ascii "(") raw = occurrences (N_of_ascii ")") raw ->
      (occurrences (N_of_ascii "(") (normalize raw)
       = occurrences (N_of_ascii ")") (normalize raw)
       <-> occurrences (N_of_ascii "=") raw = 1%nat)).
Proof.
  assert (K : forall d, char_isspace d = false ->
            (d =? 94) = false -> (d =? 61) = false ->
            (d =? 88) = false -> (d =? 120) = false ->
            occurrences d [42; 120] = O -> occurrences d [42; 88] = O ->
            occurrences d [42; 42] = O ->
            occurrences d (normalize raw)
            = (occurrences d raw
               + occurrences 61%N raw * occurrences d [45%N; 40%N]
               + occurrences d [41%N])%nat).
  { intros d Hd E1 E2 E3 E4 L1 L2 L3. unfold normalize.
    rewrite occurrences_remove_whitespace by exact Hd.
    unfold caret_to_power, equality_to_zero, insert_multiplication.
    change (N_of_ascii "x") with 120. change (N_of_ascii "X") with 88.
    change (N_of_ascii "=") with 61. change (N_of_ascii "^") with 94.
    change (py "*x") with [42; 120]. change (py "*X") with [42; 88].
    change (py "-(") with [45; 40]. change (py "**") with [42; 42].
    change (py ")") with [41].
    rewrite (occurrences_replace d 94), occurrences_app.
    rewrite (occurrences_replace d 61), (occurrences_replace d 88).
    rewrite (occurrences_replace d 120).
    rewrite (occurrences_replace 61 88), (occurrences_replace 61 120).
    change (occurrences 61 [42; 88]) with O.
    change (occurrences 61 [42; 120]) with O.
    change (61 =? 88) with false. change (61 =? 120) with false.
    rewrite E1, E2, E3, E4, L1, L2, L3.
    rewrite !Nat.mul_0_r, !Nat.add_0_r. reflexivity. }
  change (N_of_ascii "(") with 40. change (N_of_ascii ")") with 41.
  change (N_of_ascii "=") with 61.
  pose proof (K 40 eq_refl eq_refl eq_refl eq_refl eq_refl eq_refl eq_refl
                eq_refl) as Hopen.
  pose proof (K 41 eq_refl eq_refl eq_refl eq_refl eq_refl eq_refl eq_refl
                eq_refl) as Hclose.
  change (occurrences 40 [45; 40]) with 1%nat in Hopen.
  change (occurrences 40 [41]) with 0%nat in Hopen.
  change (occurrences 41 [45; 40]) with 0%nat in Hclose.
  change (occurrences 41 [41]) with 1%nat in Hclose.
  split; [lia|]. split; [lia|]. intros B. rewrite Hopen, Hclose. lia.
Qed.

End NormalizerFacts.

(** * More on the cascade *)

Module CascadeFacts.

Import Invariants PyStr Py Classifier PyStrFacts ClassifierFacts LowerFacts
  SampleFacts ArithmeticFacts.

Local Open Scope N_scope.

(** ** Questions *)

Lemma solve_is_no_starter : mem (py "solve") question_starters = false.
Proof. vm_compute. reflexivity. Qed.

(** X11.  The exemption of [solve ... =] from the question rule never
    applies, since [solve] is no question starter: a text is a definite
    question exactly when it ends in [?] or [?)] or starts with a question
    starter. *)
Theorem solve_exemption_is_idle (lower_ocr_text : str) :
  is_definitely_question lower_ocr_text
  = ends_with_question_variant lower_ocr_text
    || mem (first_word_of lower_ocr_text) question_starters.
Proof.
  unfold is_definitely_question.
  destruct (mem (first_word_of lower_ocr_text) question_starters) eqn:M;
    [|reflexivity].
  destruct (eqb (first_word_of lower_ocr_text) (py "solve")) eqn:E;
    [|reflexivity].
  apply eqb_eq in E. rewrite E, solve_is_no_starter in M. discriminate.
Qed.

(** X7.  A text that is not blank and ends in [?] or [?)], or whose first
    word in lower case is a question starter, is classified as text,
    whatever digits, operators or forbidden symbols it holds. *)
Theorem question_shaped_is_text
    (ucd : UnicodeData) (Image : Type) (text : str) (img : Image) :
  Spec.lower_keeps_symbols ucd ->
  Spec.is_blank text = false ->
  endswith text (py "?") = true \/ endswith text (py "?)") = true
  \/ mem (first_word_of (lower ucd text)) question_starters = true ->
  determine_problem_type ucd text img = Returns Text.
Proof.
  intros laws Hblank Hq.
  assert (Q : ends_with_question_variant (lower ucd text)
              || mem (first_word_of (lower ucd text)) question_starters
              = true).
  { rewrite (ends_with_question_variant_lower laws).
    unfold ends_with_question_variant.
    destruct Hq as [H|[H|H]]; rewrite H; try reflexivity.
    - now destruct (endswith text (py "?")).
    - apply orb_true_r. }
  rewrite determine_problem_type_unfold, Hblank.
  destruct (_ && gt _ _); [reflexivity|].
  destruct (has_very_bad_chars (lower ucd text)).
  - unfold is_question_like_despite_bad_chars.
    destruct (ends_with_question_variant (lower ucd text)); [reflexivity|].
    cbn [orb] in Q. now rewrite Q.
  - unfold classify_clean. now rewrite solve_exemption_is_idle, Q.
Qed.

Lemma question_shaped_is_text_witness :
  determine_problem_type sample_ucd (py "Σ: what is 2+2=4?)") tt
  = Returns Text.
Proof.
  apply question_shaped_is_text.
  - exact sample_keeps_symbols.
  - reflexivity.
  - right. left. reflexivity.
Defined.

(** ** Math verdicts *)

Lemma classify_clean_math (ucd : UnicodeData) (text lowered : str) :
  classify_clean ucd text lowered = Math ->
  has_math_operators text = true
  \/ existsb (fun phrase => contains lowered phrase) explicit_math_phrases
     = true.
Proof.
  unfold classify_clean, explicit_phrase_rule, structural_math_rule,
    pure_arithmetic_rule, is_pure_arithmetic, math_recheck.
  destruct (has_math_operators text); [now left|].
  destruct (existsb _ explicit_math_phrases); [now right|].
  rewrite !andb_false_r. cbn [andb orb negb].
  destruct (is_definitely_question lowered); [discriminate|].
  replace (has_digits ucd text && false) with false by now rewrite andb_false_r.
  cbn [andb].
  destruct (alphabetic_dominance ucd text); [discriminate|].
  destruct (List.length (strip text) <? 15)%nat; [discriminate|].
  destruct (has_digits ucd text || has_alpha ucd text); discriminate.
Qed.

(** X9.  A text is classified as math only if it holds one of the
    operators [+ - * / ^] or, in lower case, one of the explicit math
    phrases. *)
Theorem math_needs_operator_or_phrase
    (ucd : UnicodeData) (Image : Type) (text : str) (img : Image) :
  determine_problem_type ucd text img = Returns Math ->
  has_math_operators text = true
  \/ existsb (fun phrase => contains (lower ucd text) phrase)
       explicit_math_phrases = true.
Proof.
  rewrite determine_problem_type_unfold. intros H. injection H as H.
  destruct (Spec.is_blank text); [discriminate|].
  destruct (_ && gt _ _); [discriminate|].
  destruct (has_very_bad_chars (lower ucd text)).
  - destruct (is_question_like_despite_bad_chars _); discriminate.
  - now apply classify_clean_math in H.
Qed.

Lemma math_needs_operator_or_phrase_witness :
  has_math_operators (py "Find the value of x")= true
  \/ existsb (fun phrase =>
                contains (lower latin1_only (py "Find the value of x")) phrase)
       explicit_math_phrases = true.
Proof.
  apply (@math_needs_operator_or_phrase latin1_only unit
           (py "Find the value of x") tt).
  vm_compute. reflexivity.
Defined.

(** X8.  A text with a forbidden symbol in it is never classified as
    math: it is classified as text or as visual. *)
Theorem forbidden_symbol_never_math
    (ucd : UnicodeData) (Image : Type) (text : str) (img : Image) :
  Spec.lower_keeps_symbols ucd ->
  has_very_bad_chars text = true ->
  determine_problem_type ucd text img = Returns Text
  \/ determine_problem_type ucd text img = Returns Visual.
Proof.
  intros laws Hbad. rewrite determine_problem_type_unfold.
  destruct (Spec.is_blank text); [now right|].
  destruct (_ && gt _ _); [now left|].
  rewrite (has_very_bad_chars_lower laws), Hbad.
  destruct (is_question_like_despite_bad_chars _); [now left|now right].
Qed.

Lemma forbidden_symbol_never_math_witness :
  determine_problem_type sample_ucd (py "solve 2x + 3 = 7 @ İ") tt
  = Returns Text
  \/ determine_problem_type sample_ucd (py "solve 2x + 3 = 7 @ İ") tt
     = Returns Visual.
Proof.
  apply forbidden_symbol_never_math.
  - exact sample_keeps_symbols.
  - reflexivity.
Defined.

(** ** Short texts *)

Lemma length_lstrip (s : str) : (List.length (lstrip s) <= List.length s)%nat.
Proof.
  induction s as [|c s IH]; [reflexivity|]. simpl.
  destruct (char_isspace c); simpl; lia.
Qed.

Lemma length_strip (s : str) : (List.length (strip s) <= List.length s)%nat.
Proof.
  unfold strip, rstrip. rewrite length_rev.
  pose proof (length_lstrip (rev (lstrip s))) as H. rewrite length_rev in H.
  pose proof (length_lstrip s). lia.
Qed.

(** X12.  A text of at most ten characters is classified as text only by
    the script rule or the question rule: when it is neither CJK-dominant
    nor question-shaped it is classified as math or as visual, however
    many letters it holds. *)
Theorem short_text_is_not_text
    (ucd : UnicodeData) (Image : Type) (text : str) (img : Image) :
  Spec.lower_keeps_symbols ucd ->
  (List.length text <= 10)%nat ->
  cjk_dominant text = Returns false ->
  endswith text (py "?") = false ->
  endswith text (py "?)") = false ->
  mem (first_word_of (lower ucd text)) question_starters = false ->
  determine_problem_type ucd text img = Returns Math
  \/ determine_problem_type ucd text img = Returns Visual.
Proof.
  intros laws Hlen Hcjk Hq Hqp Hfirst.
  assert (Q : ends_with_question_variant (lower ucd text) = false).
  { rewrite (ends_with_question_variant_lower laws).
    unfold ends_with_question_variant. now rewrite Hq, Hqp. }
  rewrite determine_problem_type_unfold.
  destruct (Spec.is_blank text); [now right|].
  rewrite cjk_dominant_total in Hcjk. injection Hcjk as Hcjk. rewrite Hcjk.
  destruct (has_very_bad_chars (lower ucd text)).
  - unfold is_question_like_despite_bad_chars. rewrite Q, Hfirst. now right.
  - unfold classify_clean. rewrite solve_exemption_is_idle, Q, Hfirst.
    cbn [orb].
    destruct (explicit_phrase_rule _); [now left|].
    destruct (structural_math_rule _ _ _); [now left|].
    destruct (pure_arithmetic_rule _ _ _); [now left|].
    replace (alphabetic_dominance ucd text) with false.
    + replace (List.length (strip text) <? 15)%nat with true.
      * destruct (math_recheck _ _ _); [now left|now right].
      * symmetry. apply Nat.ltb_lt. pose proof (length_strip text). lia.
    + symmetry. unfold alphabetic_dominance.
      replace (10 <? List.length text)%nat with false;
        [apply andb_false_r|].
      symmetry. apply Nat.ltb_ge. exact Hlen.
Qed.

Lemma short_text_is_not_text_witness :
  determine_problem_type sample_ucd (py "İstanbul") tt = Returns Math
  \/ determine_problem_type sample_ucd (py "İstanbul") tt = Returns Visual.
Proof.
  apply short_text_is_not_text.
  - exact sample_keeps_symbols.
  - vm_compute. lia.
  - reflexivity.
  - reflexivity.
  - reflexivity.
  - reflexivity.
Defined.

(** ** The two counts *)

Lemma cjk_is_no_space (c : char) : _is_cjk c = true -> char_isspace c = false.
Proof.
  unfold _is_cjk. intros H.
  assert (R : 12352 <= c)
    by (repeat first
          [ apply orb_prop in H; destruct H as [H|H]
          | apply andb_prop in H; destruct H as [H _];
            apply N.leb_le in H ]; lia).
  unfold char_isspace. decide_comparisons.
Qed.

Lemma count_if_ext (f g : char -> bool) (s : str) :
  (forall c, f c = g c) -> count_if f s = count_if g s.
Proof.
  intros E. unfold count_if. f_equal. now apply filter_ext.
Qed.

Lemma count_if_le (f g : char -> bool) (s : str) :
  (forall c, f c = true -> g c = true) ->
  (count_if f s <= count_if g s)%nat.
Proof.
  intros E. unfold count_if. induction s as [|c s IH]; [reflexivity|].
  simpl. destruct (f c) eqn:F.
  - rewrite (E c F). simpl. lia.
  - destruct (g c); simpl; lia.
Qed.

Lemma count_if_length (f : char -> bool) (s : str) :
  (count_if f s <= List.length s)%nat.
Proof. apply filter_length_le. Qed.

(** X10.  White space is never CJK, so the first count is the number of
    CJK characters of the text; it is at most the second count, which is
    at most the length, and the ratio lies between 0 and 1. *)
Theorem script_counts (text : str) :
  cjk_char_count text = count_if _is_cjk text
  /\ (cjk_char_count text <= total_non_whitespace_chars text)%nat
  /\ (total_non_whitespace_chars text <= List.length text)%nat
  /\ (0 <= Spec.cjk_ratio text)%Q
  /\ (Spec.cjk_ratio text <= 1)%Q.
Proof.
  assert (L : (cjk_char_count text <= total_non_whitespace_chars text)%nat).
  { rewrite cjk_char_count_count, total_non_whitespace_chars_count.
    apply count_if_le. intros c H. now apply andb_prop in H. }
  split; [|split; [exact L|split; [|split]]].
  - rewrite cjk_char_count_count. apply count_if_ext. intros c.
    destruct (_is_cjk c) eqn:K; [|apply andb_false_r].
    now rewrite (cjk_is_no_space c K).
  - rewrite total_non_whitespace_chars_count. apply count_if_length.
  - unfold Spec.cjk_ratio.
    destruct (total_non_whitespace_chars text); [apply Qle_refl|].
    unfold Qle. simpl. lia.
  - unfold Spec.cjk_ratio.
    destruct (total_non_whitespace_chars text) as [|n] eqn:T;
      [unfold Qle; simpl; lia|].
    unfold Qle. cbn [Qnum Qden]. rewrite Z.mul_1_r, Z.mul_1_l.
    rewrite <- positive_nat_Z, Nat2Pos.id by discriminate. lia.
Qed.

End CascadeFacts.

(** * More on the routing of text questions *)

Module RoutingFacts.

Import PyStr Py NlpSolver NlpSolverFacts.

Local Open Scope N_scope.

(** The key test of [answer_text_question] (line 55) implies that of
    [solve_text_problem_with_gemini] (ocr_module.py, line 132). *)
Lemma usable_key_passes_guard (env : Env) (problem_text : str) :
  key_is_usable env = true ->
  OcrModule.solve_text_problem_with_gemini (API_KEY env) (exchange env)
    problem_text
  = exchange env problem_text.
Proof.
  unfold key_is_usable, OcrModule.solve_text_problem_with_gemini, mem.
  cbn [existsb]. intros H. apply andb_prop in H. destruct H as [T M].
  rewrite T. apply negb_true_iff in M. rewrite orb_false_r in M.
  cbn [negb orb]. now rewrite M.
Qed.

Lemma should_use_needs_key (ucd : UnicodeData) (env : Env) (text : str) :
  should_use_gemini ucd env text = true -> key_is_usable env = true.
Proof.
  unfold should_use_gemini. now destruct (key_is_usable env).
Qed.

(** X13.  When the remote backend is asked, its own key check lets the
    request through; and when its answer does not begin with the error
    marker, that answer is returned behind the heading of line 69 and the
    local model is not called, loaded or not. *)
Theorem remote_answer_is_returned
    (ucd : UnicodeData) (env : Env) (text : str) :
  should_use_gemini ucd env text = true ->
  startswith (exchange env text) error_marker = false ->
  answer_text_question ucd env text
  = ([Printed trying_gemini_message; GeminiCalled text],
     Returns (gemini_solution (exchange env text))).
Proof.
  intros S E. unfold answer_text_question.
  rewrite (early_return_needs_no_key _ _ _ S), S.
  unfold io_bind, print, call_gemini.
  rewrite (usable_key_passes_guard env text (should_use_needs_key _ _ _ S)).
  now rewrite E.
Qed.

Lemma remote_answer_is_returned_witness :
  answer_text_question latin1_only env_ready
    (py "If 3 pens cost 12 dollars, how much do 7 pens cost in all?")
  = ([Printed trying_gemini_message;
      GeminiCalled
        (py "If 3 pens cost 12 dollars, how much do 7 pens cost in all?")],
     Returns (gemini_solution (py "ok"))).
Proof.
  apply (@remote_answer_is_returned latin1_only env_ready
           (py "If 3 pens cost 12 dollars, how much do 7 pens cost in all?"));
    reflexivity.
Defined.

(** X14.  Whatever the text and the environment, the events of
    [answer_text_question] are one of five sequences: nothing; the local
    call alone; the notice and the remote call; these two and the warning;
    or these three and the local call.  So the backend is called at most
    once, the local model at most once and never before the backend; and
    the function raises only what the local analysis raises. *)
Theorem routing_events (ucd : UnicodeData) (env : Env) (text : str) :
  (trace (answer_text_question ucd env text) = []
   \/ trace (answer_text_question ucd env text) = [NlpCalled text]
   \/ trace (answer_text_question ucd env text)
      = [Printed trying_gemini_message; GeminiCalled text]
   \/ (exists warning,
         trace (answer_text_question ucd env text)
         = [Printed trying_gemini_message; GeminiCalled text;
            Printed warning])
   \/ (exists warning,
         trace (answer_text_question ucd env text)
         = [Printed trying_gemini_message; GeminiCalled text;
            Printed warning; NlpCalled text]))
  /\ (forall e,
        result (answer_text_question ucd env text) = Raises e ->
        exists analyse, NLP env = Some analyse /\ analyse text = Raises e).
Proof.
  unfold answer_text_question, local_analysis, io_bind, print, call_gemini.
  destruct (is_none (NLP env) && negb (truthy (API_KEY env))).
  { split; [now left|discriminate]. }
  destruct (should_use_gemini ucd env text).
  - destruct (negb (startswith _ error_marker)).
    + split; [right; right; now left|discriminate].
    + destruct (NLP env) as [analyse|]; cbn [ret trace result fst snd app].
      * split; [do 4 right; eexists; reflexivity|].
        intros e He. now exists analyse.
      * split; [do 3 right; left; eexists; reflexivity|discriminate].
  - destruct (NLP env) as [analyse|]; cbn [ret trace result fst snd app].
    + split; [right; now left|]. intros e He. now exists analyse.
    + split; [now left|discriminate].
Qed.

End RoutingFacts.

(** * The reading of a reply *)

Module GeminiReplyFacts.

Import PyStr PyJson GeminiReply.

Local Open Scope N_scope.

Lemma startswith_app (a b prefix : str) :
  startswith a prefix = true -> startswith (a ++ b) prefix = true.
Proof.
  revert a. induction prefix as [|p prefix IH]; intros [|c a]; cbn;
    try easy.
  intros H. apply andb_prop in H. destruct H as [E S].
  now rewrite E, (IH _ S).
Qed.

Lemma ocr_wording_marked : marked ocr_wording.
Proof. repeat split; vm_compute; reflexivity. Qed.

Lemma solve_wording_marked : marked solve_wording.
Proof. repeat split; vm_compute; reflexivity. Qed.

Lemma getitem_field (name : str) (v x : Value) :
  getitem (Field name) v = Ok x -> field name v = Some x.
Proof.
  destruct v; cbn; try discriminate.
  destruct (assoc name entries); now intros [= ->].
Qed.

Lemma field_getitem (name : str) (v x : Value) :
  field name v = Some x -> getitem (Field name) v = Ok x.
Proof.
  destruct v; cbn; try discriminate. now intros ->.
Qed.

Lemma field_in (name : str) (v x : Value) :
  field name v = Some x -> py_in name v = Ok true.
Proof.
  destruct v; cbn; try discriminate. now intros ->.
Qed.

Lemma field_get (name : str) (default v x : Value) :
  field name v = Some x -> get name default v = Ok x.
Proof.
  destruct v; cbn; try discriminate. now intros ->.
Qed.


Lemma getitem_index0 (v x : Value) :
  getitem Index0 v = Ok x ->
  (exists items, v = Arr (x :: items))
  \/ (exists c s, v = Str (c :: s) /\ x = Str [c]).
Proof.
  destruct v as [| | |s|items|]; cbn; try discriminate.
  - destruct s as [|c s]; [discriminate|]. intros [= <-]. right.
    now exists c, s.
  - destruct items as [|y items]; [discriminate|]. intros [= ->]. left.
    now exists items.
Qed.

Lemma field_of_char (name : str) (c : char) : field name (Str [c]) = None.
Proof. reflexivity. Qed.

(** A value reached by field names from the first candidate: the
    candidates are then an array, and the first of them an object. *)
Lemma content_ok (result x : Value) :
  content result = Ok x ->
  exists c cs,
    field (py "candidates") result = Some (Arr (c :: cs))
    /\ field (py "content") c = Some x.
Proof.
  unfold content, first_candidate, candidates.
  destruct (getitem (Field (py "candidates")) result) as [cands|] eqn:C;
    [|discriminate].
  cbn [bind]. apply getitem_field in C.
  destruct (getitem Index0 cands) as [c|] eqn:I; [|discriminate].
  cbn [bind]. intros X. apply getitem_field in X.
  destruct (getitem_index0 _ I) as [[cs ->]|[ch [s [-> ->]]]].
  - now exists c, cs.
  - discriminate.
Qed.

Lemma parts_ok (result p : Value) :
  parts result = Ok p ->
  exists c cs x,
    field (py "candidates") result = Some (Arr (c :: cs))
    /\ field (py "content") c = Some x
    /\ field (py "parts") x = Some p.
Proof.
  unfold parts. destruct (content result) as [x|] eqn:X; [|discriminate].
  cbn [bind]. intros P. apply getitem_field in P.
  destruct (content_ok _ X) as [c [cs [C F]]]. now exists c, cs, x.
Qed.

Lemma parts_of_array (result : Value) (ps : list Value) :
  parts result = Ok (Arr ps) -> parts_of result = Some ps.
Proof.
  intros P. destruct (parts_ok _ P) as [c [cs [x [C [X F]]]]].
  unfold parts_of. now rewrite C, X, F.
Qed.

Lemma and_then_true (a b : Outcome bool) :
  and_then a b = Ok true -> a = Ok true /\ b = Ok true.
Proof.
  unfold and_then. destruct a as [[|]|]; cbn; now try discriminate.
Qed.

(** [join] after the comprehension of line 101: what comes out is the
    texts of the parts, one after the other. *)
Lemma joined_texts (items texts : list Value) (position : nat)
    (joined : str) :
  for_each (get (py "text") (Str [])) items = Ok texts ->
  join_from position texts = Ok joined ->
  joined = List.concat (map part_text items).
Proof.
  revert texts position joined.
  induction items as [|item items IH]; intros texts position joined.
  - cbn. intros [= <-]. cbn. now intros [= <-].
  - cbn [for_each].
    destruct (get (py "text") (Str []) item) as [t|] eqn:G; [|discriminate].
    cbn [bind].
    destruct (for_each (get (py "text") (Str [])) items) as [ts|] eqn:F;
      [|discriminate].
    cbn [bind]. intros [= <-]. cbn [join_from].
    destruct t as [| | |s| |]; try discriminate.
    destruct (join_from (S position) ts) as [rest|] eqn:J; [|discriminate].
    cbn [bind]. intros [= <-]. cbn [map List.concat].
    rewrite <- (IH ts (S position) rest eq_refl J). f_equal.
    destruct item; try discriminate. unfold part_text, field.
    cbn [get] in G. destruct (assoc (py "text") entries); now inversion G.
Qed.

Lemma for_each_strings (A : Type) (f : Value -> Outcome A) (ss : list str)
    (bs : list A) :
  (forall s, exists e, f (Str s) = Raise e) ->
  for_each f (map Str ss) = Ok bs -> ss = [].
Proof.
  intros R. destruct ss as [|s ss]; [easy|]. cbn.
  destruct (R s) as [e ->]. discriminate.
Qed.

Lemma combined_text_ok (result : Value) (combined : str) :
  combined_text result = Ok combined ->
  combined = []
  \/ exists ps,
       parts_of result = Some ps
       /\ combined = strip (List.concat (map part_text ps)).
Proof.
  unfold combined_text.
  destruct (parts result) as [p|] eqn:P; [|discriminate]. cbn [bind].
  destruct (iterate p) as [items|] eqn:I; [|discriminate]. cbn [bind].
  destruct (for_each _ items) as [texts|] eqn:F; [|discriminate].
  cbn [bind]. unfold join.
  destruct (join_from 0 texts) as [joined|] eqn:J; [|discriminate].
  cbn [bind]. intros [= <-].
  destruct p as [| | |s|ps|entries]; try discriminate.
  - left. cbn in I. injection I as <-.
    assert (E : chars_of s = []).
    { apply (@for_each_strings _ (get (py "text") (Str [])) _ texts);
        [intros s'; eexists; reflexivity|exact F]. }
    rewrite E in F. cbn in F. injection F as <-. cbn in J.
    now injection J as <-.
  - right. exists ps. cbn in I. injection I as <-.
    split; [now apply parts_of_array|].
    now rewrite (joined_texts _ _ F J).
  - left. cbn in I. injection I as <-.
    rewrite <- (map_map fst Str) in F.
    assert (E : map fst entries = []).
    { apply (@for_each_strings _ (get (py "text") (Str [])) _ texts);
        [intros s'; eexists; reflexivity|exact F]. }
    rewrite E in F. cbn in F. injection F as <-. cbn in J.
    now injection J as <-.
Qed.


Lemma char_holds_no_name (c : char) (name : str) :
  (2 <= List.length name)%nat -> contains [c] name = false.
Proof.
  destruct name as [|p [|q name]]; cbn [List.length]; try lia. intros _.
  cbn. now rewrite andb_false_r.
Qed.

Lemma bind_ok (A B : Type) (r : Outcome A) (k : A -> Outcome B) (b : B) :
  bind r k = Ok b -> exists a, r = Ok a /\ k a = Ok b.
Proof.
  destruct r as [a|]; [|discriminate]. intros H. now exists a.
Qed.

(** The test of lines 85-89 holds only for a reply whose first candidate
    has an array of parts, the first of which has the field or holds the
    name. *)
Lemma has_first_text_true (result : Value) :
  has_first_text result = Ok true ->
  exists p ps,
    parts_of result = Some (p :: ps)
    /\ first_part result = Ok p
    /\ py_in (py "text") p = Ok true.
Proof.
  unfold has_first_text. intros H.
  do 5 (apply and_then_true in H; destruct H as [_ H]).
  apply bind_ok in H. destruct H as [p [F T]].
  assert (F' := F). unfold first_part in F'.
  apply bind_ok in F'. destruct F' as [ps [P I]].
  destruct (getitem_index0 _ I) as [[rest ->]|[c [s [-> ->]]]].
  - exists p, rest. now rewrite (parts_of_array _ P).
  - unfold py_in in T. rewrite char_holds_no_name in T; [discriminate|].
    vm_compute. lia.
Qed.

Lemma for_each_no_key_error (items : list Value) (key : Key) :
  for_each (get (py "text") (Str [])) items <> Raise (KeyError key).
Proof.
  induction items as [|item items IH]; cbn [for_each]; [discriminate|].
  destruct item; cbn; try discriminate.
  destruct (for_each _ items); cbn; [discriminate|].
  intros [= E]. apply IH. now rewrite E.
Qed.

Lemma join_no_key_error (items : list Value) (position : nat) (key : Key) :
  join_from position items <> Raise (KeyError key).
Proof.
  revert position. induction items as [|item items IH]; intros position;
    cbn [join_from]; [discriminate|].
  destruct item; try discriminate.
  destruct (join_from (S position) items) eqn:J; cbn; [discriminate|].
  intros [= E]. apply (IH (S position)). now rewrite J, E.
Qed.

(** One case analysis on a hypothesis about a walk through a reply. *)
Ltac break_match H :=
  match type of H with
  | context [match ?x with _ => _ end] =>
      lazymatch x with
      | context [match _ with _ => _ end] => fail
      | _ => destruct x eqn:?
      end
  end.

Ltac unfold_read :=
  unfold read, has_first_text, is_blocked, has_some_parts, combined_text,
    first_part, parts, content, first_candidate, candidates,
    prompt_feedback, and_then, bind, py_in, getitem, get, py_strip,
    iterate.

Section WithInterpreter.

Variable repr : Value -> str.
Variable exception_text : Exn -> str.
Variable w : Wording.

(** What [read] returns is the text of the first part, the texts of all
    parts, or one of two messages. *)
Lemma read_ok (result : Value) (text : str) :
  read repr w result = Ok text ->
  (exists p ps t,
     parts_of result = Some (p :: ps)
     /\ field (py "text") p = Some (Str t)
     /\ text = strip t)
  \/ (exists ps,
        parts_of result = Some ps
        /\ text = strip (List.concat (map part_text ps))
        /\ text <> [])
  \/ text = unknown_structure_message w
  \/ exists block_reason safety_ratings_info,
       text = blocked_message repr block_reason safety_ratings_info.
Proof.
  unfold read. intros H. apply bind_ok in H. destruct H as [[|] [F H]].
  - left. destruct (has_first_text_true _ F) as [p [ps [P [FP T]]]].
    rewrite FP in H. cbn [bind] in H.
    apply bind_ok in H. destruct H as [t [G S]].
    apply getitem_field in G. destruct t as [| | |t| |]; try discriminate.
    injection S as <-. now exists p, ps, t.
  - apply bind_ok in H. destruct H as [[|] [B H]].
    + do 3 right.
      apply bind_ok in H. destruct H as [f [_ H]].
      apply bind_ok in H. destruct H as [block_reason [_ H]].
      apply bind_ok in H. destruct H as [f' [_ H]].
      apply bind_ok in H. destruct H as [safety [_ H]].
      injection H as <-. now exists block_reason, safety.
    + apply bind_ok in H. destruct H as [[|] [S H]].
      * apply bind_ok in H. destruct H as [combined [C H]].
        destruct (PyStr.truthy combined) eqn:T.
        -- injection H as <-.
           destruct (combined_text_ok _ C) as [->|[ps [P E]]];
             [discriminate|].
           right. left. exists ps. repeat split; trivial.
           intros ->. discriminate.
        -- injection H as <-. right. right. now left.
      * injection H as <-. right. right. now left.
Qed.

(** A missing field never raises: every access by name is guarded by a
    test of the name.  Only the index 0 can, on an object. *)
Lemma read_key_error (result : Value) (key : Key) :
  read repr w result = Raise (KeyError key) -> key = Index0.
Proof.
  unfold_read. intros H.
  repeat (break_match H; try discriminate;
          try (injection H as <-; reflexivity)).
  all: exfalso.
  all: repeat match goal with
         | H : match ?x with _ => _ end = _ |- _ => destruct x eqn:?
         end; try discriminate.
  all: repeat match goal with
         | E : Raise _ = Raise _ |- _ => injection E as E; subst
         end.
  all: match goal with
       | H : for_each _ _ = Raise (KeyError ?k) |- _ =>
           exact (@for_each_no_key_error _ k H)
       | H : join _ = Raise (KeyError ?k) |- _ =>
           exact (@join_no_key_error _ 0%nat k H)
       end.
Qed.

(** What [answer] returns, for a wording whose texts are marked. *)
Lemma answer_cases (x : Exchange) :
  marked w ->
  startswith (answer repr exception_text w x) NlpSolver.error_marker = true
  \/ exists result ps,
       x = Replied result /\ parts_of result = Some ps
       /\ ((exists p rest t,
              ps = p :: rest /\ field (py "text") p = Some (Str t)
              /\ answer repr exception_text w x = strip t)
           \/ (answer repr exception_text w x
               = strip (List.concat (map part_text ps))
               /\ answer repr exception_text w x <> [])).
Proof.
  intros [U [T [R [K E]]]].
  destruct x as [|e|e|e|result]; cbn [answer];
    try (left; first [exact T | now apply startswith_app]).
  destruct (read repr w result) as [text|e] eqn:Rd.
  - destruct (read_ok _ Rd)
      as [[p [ps [t [P [F ->]]]]]|[[ps [P [-> N]]]|[->|[b [s ->]]]]].
    + right. exists result, (p :: ps). repeat split; trivial. left.
      now exists p, ps, t.
    + right. exists result, ps. repeat split; trivial. now right.
    + now left.
    + left. unfold blocked_message. now apply startswith_app.
  - left. destruct e; cbn [handle]; now apply startswith_app.
Qed.

End WithInterpreter.


(** X15.  A reply of the expected shape: the first candidate has a
    content whose parts are an array, and the first part has a string as
    its text.  Either function then returns that text, stripped. *)
Theorem first_text_is_returned
    (repr : Value -> str) (exception_text : Exn -> str) (w : Wording)
    (result c x p : Value) (cs ps : list Value) (t : str) :
  field (py "candidates") result = Some (Arr (c :: cs)) ->
  field (py "content") c = Some x ->
  field (py "parts") x = Some (Arr (p :: ps)) ->
  field (py "text") p = Some (Str t) ->
  answer repr exception_text w (Replied result) = strip t.
Proof.
  intros C X P T. cbn [answer].
  assert (Cs : candidates result = Ok (Arr (c :: cs)))
    by now apply field_getitem.
  assert (Fc : first_candidate result = Ok c)
    by (unfold first_candidate; now rewrite Cs).
  assert (Ct : content result = Ok x)
    by (unfold content; rewrite Fc; now apply field_getitem).
  assert (Ps : parts result = Ok (Arr (p :: ps)))
    by (unfold parts; rewrite Ct; now apply field_getitem).
  assert (Fp : first_part result = Ok p)
    by (unfold first_part; now rewrite Ps).
  unfold read, has_first_text.
  rewrite (field_in _ _ C), Cs, Fc, Ct, Ps, Fp. cbn [and_then bind truthy].
  rewrite (field_in _ _ X), (field_in _ _ P), (field_in _ _ T).
  cbn [bind]. now rewrite (field_getitem _ _ T).
Qed.

Lemma first_text_is_returned_witness :
  answer OcrCalls.no_repr OcrCalls.no_text ocr_wording
    (Replied (OcrCalls.text_reply (py " 2x + 3 = 7 ")))
  = py "2x + 3 = 7".
Proof.
  apply (@first_text_is_returned OcrCalls.no_repr OcrCalls.no_text
           ocr_wording (OcrCalls.text_reply (py " 2x + 3 = 7 "))
           (OcrCalls.candidate_of
              (OcrCalls.content_of_parts
                 [OcrCalls.text_part (py " 2x + 3 = 7 ")]))
           (OcrCalls.content_of_parts
              [OcrCalls.text_part (py " 2x + 3 = 7 ")])
           (OcrCalls.text_part (py " 2x + 3 = 7 "))
           [] [] (py " 2x + 3 = 7 "));
    reflexivity.
Defined.

(** X16.  Whatever the request ends with and whatever the reply holds,
    either function returns a text that begins with the error marker, or
    the stripped text of the first part of the reply, or the stripped
    texts of all its parts, which are then not empty. *)
Theorem answer_is_marked_or_text
    (repr : Value -> str) (exception_text : Exn -> str) (w : Wording)
    (x : Exchange) :
  In w [ocr_wording; solve_wording] ->
  startswith (answer repr exception_text w x) NlpSolver.error_marker = true
  \/ exists result ps,
       x = Replied result /\ parts_of result = Some ps
       /\ ((exists p rest t,
              ps = p :: rest /\ field (py "text") p = Some (Str t)
              /\ answer repr exception_text w x = strip t)
           \/ (answer repr exception_text w x
               = strip (List.concat (map part_text ps))
               /\ answer repr exception_text w x <> [])).
Proof.
  intros [<-|[<-|[]]]; apply answer_cases.
  - apply ocr_wording_marked.
  - apply solve_wording_marked.
Qed.

Lemma answer_is_marked_or_text_witness :
  startswith
    (answer OcrCalls.no_repr OcrCalls.no_text solve_wording
       (Replied OcrCalls.blocked_reply))
    NlpSolver.error_marker = true
  \/ exists result ps,
       Replied OcrCalls.blocked_reply = Replied result
       /\ parts_of result = Some ps
       /\ ((exists p rest t,
              ps = p :: rest /\ field (py "text") p = Some (Str t)
              /\ answer OcrCalls.no_repr OcrCalls.no_text solve_wording
                   (Replied OcrCalls.blocked_reply)
                 = strip t)
           \/ (answer OcrCalls.no_repr OcrCalls.no_text solve_wording
                 (Replied OcrCalls.blocked_reply)
               = strip (List.concat (map part_text ps))
               /\ answer OcrCalls.no_repr OcrCalls.no_text solve_wording
                    (Replied OcrCalls.blocked_reply)
                  <> [])).
Proof.
  apply (@answer_is_marked_or_text OcrCalls.no_repr OcrCalls.no_text
           solve_wording (Replied OcrCalls.blocked_reply)).
  cbn [In]. right. left. reflexivity.
Defined.

(** X17.  While a reply is read, a missing field never raises
    [KeyError]: each access by name comes after a test of that name.
    The handler of lines 111-118 (192-198) is reached from the reading
    only by the index 0 applied to an object. *)
Theorem key_error_is_index_only
    (repr : Value -> str) (w : Wording) (result : Value) (key : Key) :
  read repr w result = Raise (KeyError key) -> key = Index0.
Proof. apply read_key_error. Qed.

Lemma key_error_is_index_only_witness :
  read OcrCalls.no_repr ocr_wording OcrCalls.keyed_reply
  = Raise (KeyError Index0)
  /\ Index0 = Index0.
Proof.
  split; [reflexivity|].
  apply (@key_error_is_index_only OcrCalls.no_repr ocr_wording
           OcrCalls.keyed_reply Index0).
  reflexivity.
Defined.

End GeminiReplyFacts.

(** * The two requests *)

Module OcrCallsFacts.

Import PyStr PyJson GeminiReply OcrCalls GeminiReplyFacts.

Local Open Scope N_scope.

Lemma ascii_is_latin1 (c : char) : (c <? 128) = true -> is_latin1 c = true.
Proof.
  unfold is_latin1. intros A. apply N.ltb_lt in A. apply N.ltb_lt. lia.
Qed.

(** Lower case after upper case is lower case, for an ASCII character. *)
Lemma ascii_lower_upper (c : char) :
  (c <? 128) = true -> latin1_lower (ascii_upper c) = latin1_lower c.
Proof.
  intros A. apply N.eqb_eq.
  generalize (ascii_is_latin1 c A). revert A.
  generalize
    (ArithmeticFacts.latin1_forall
       (fun c => implb (c <? 128)
                   (latin1_lower (ascii_upper c) =? latin1_lower c))
       eq_refl c).
  intros H A L. specialize (H L). now rewrite A in H.
Qed.

Section WithInterpreter.

Variable ucd : UnicodeData.
Variable upper_ext : char -> str.

Lemma upper_ascii (s : str) :
  forallb (fun c => c <? 128) s = true ->
  upper upper_ext s = map ascii_upper s.
Proof.
  induction s as [|c s IH]; [reflexivity|]. cbn [forallb].
  intros H. apply andb_prop in H. destruct H as [A H].
  unfold upper in *. cbn [flat_map map]. rewrite A, (IH H). reflexivity.
Qed.

Lemma lower_ascii (before s : str) :
  forallb (fun c => c <? 128) s = true ->
  lower_from ucd before s = map latin1_lower s.
Proof.
  revert before. induction s as [|c s IH]; intros before; [reflexivity|].
  cbn [forallb]. intros H. apply andb_prop in H. destruct H as [A H].
  cbn [lower_from map]. unfold lower_char.
  rewrite (ascii_is_latin1 c A), (IH _ H). reflexivity.
Qed.

(** An ASCII name that reads as [name] in upper case reads as [name]
    does in lower case. *)
Lemma lower_of_upper (s name : str) :
  forallb (fun c => c <? 128) s = true ->
  eqb (upper upper_ext s) name = true ->
  lower ucd s = map latin1_lower name.
Proof.
  intros A E. apply ArithmeticFacts.eqb_eq in E.
  rewrite (upper_ascii s A) in E. subst name.
  unfold lower. rewrite (lower_ascii [] s A), map_map.
  apply map_ext_in. intros c I. symmetry. apply ascii_lower_upper.
  rewrite forallb_forall in A. now apply A.
Qed.

(** X18.  An image whose format is not set, or is named in ASCII, is
    declared with one of the five supported types, whatever the name and
    its case; and only a name that is not kept is warned about. *)
Theorem declared_type_is_supported (format : option str) :
  (forall f, format = Some f -> forallb (fun c => c <? 128) f = true) ->
  mem (mime_type ucd (snd (choose_format upper_ext format)))
    supported_types = true
  /\ (fst (choose_format upper_ext format) = []
      \/ snd (choose_format upper_ext format) = py "PNG").
Proof.
  intros A. unfold choose_format.
  set (f0 := match format with
             | Some f => if PyStr.truthy f then f else py "PNG"
             | None => py "PNG"
             end).
  assert (A0 : forallb (fun c => c <? 128) f0 = true).
  { subst f0. destruct format as [f|]; [|reflexivity].
    destruct (PyStr.truthy f); [now apply A|reflexivity]. }
  clearbody f0.
  set (f1 := if eqb (upper upper_ext f0) (py "JPG") then py "JPEG" else f0).
  assert (A1 : forallb (fun c => c <? 128) f1 = true).
  { subst f1. now destruct (eqb (upper upper_ext f0) (py "JPG")). }
  clearbody f1.
  destruct (mem (upper upper_ext f1) supported_formats) eqn:M;
    cbn [negb fst snd].
  - split; [|now left]. unfold mime_type.
    unfold mem, supported_formats in M. cbn [existsb] in M.
    repeat (apply orb_prop in M; destruct M as [M|M]);
      try discriminate;
      now rewrite (lower_of_upper f1 _ A1 M).
  - split; [reflexivity|now right].
Qed.

End WithInterpreter.

Lemma declared_type_is_supported_witness :
  mem (mime_type latin1_only
         (snd (choose_format sample_upper (Some (py "jpg")))))
    supported_types = true
  /\ (fst (choose_format sample_upper (Some (py "jpg"))) = []
      \/ snd (choose_format sample_upper (Some (py "jpg"))) = py "PNG").
Proof.
  apply (@declared_type_is_supported latin1_only sample_upper
           (Some (py "jpg"))).
  intros f [= <-]. reflexivity.
Defined.

(** The name has to be ASCII: with the dotless i (U+0131), whose upper
    case is the capital I, a name passes the test of line 39 and is
    declared as it is. *)
Example dotless_name_is_kept :
  choose_format sample_upper (Some [104; 101; 305; 99])
  = ([], [104; 101; 305; 99])
  /\ mem (mime_type latin1_only [104; 101; 305; 99]) supported_types
     = false.
Proof. split; reflexivity. Qed.

(** X19.  When the remote backend is asked and the request does not end
    with a reply that has parts (it times out, fails, raises, or the
    reply is blocked or of another shape), [answer_text_question] warns
    and goes on with the local analysis, or with the message of line 77
    when no model is loaded. *)
Theorem reply_without_parts_falls_back
    (ucd : UnicodeData) (repr : Value -> str) (exception_text : Exn -> str)
    (NLP : option (str -> Py.Result str)) (API_KEY : str)
    (post : str -> Exchange) (text : str) :
  NlpSolver.should_use_gemini ucd
    (remote_env repr exception_text NLP API_KEY post) text = true ->
  (forall result,
     post (prompt text) = Replied result -> parts_of result = None) ->
  NlpSolver.answer_text_question ucd
    (remote_env repr exception_text NLP API_KEY post) text
  = ([NlpSolver.Printed NlpSolver.trying_gemini_message;
      NlpSolver.GeminiCalled text;
      NlpSolver.Printed
        (NlpSolver.gemini_failed_message
           (solve_exchange repr exception_text post text))]
     ++ NlpSolver.trace
          (NlpSolver.local_analysis
             (remote_env repr exception_text NLP API_KEY post) text),
     NlpSolver.result
       (NlpSolver.local_analysis
          (remote_env repr exception_text NLP API_KEY post) text)).
Proof.
  intros S N. unfold NlpSolver.answer_text_question.
  rewrite (NlpSolverFacts.early_return_needs_no_key _ _ _ S), S.
  unfold NlpSolver.io_bind, NlpSolver.print, NlpSolver.call_gemini.
  rewrite (RoutingFacts.usable_key_passes_guard _ text
             (RoutingFacts.should_use_needs_key _ _ _ S)).
  cbn [NlpSolver.exchange remote_env].
  assert (M : startswith (solve_exchange repr exception_text post text)
                NlpSolver.error_marker = true).
  { unfold solve_exchange.
    destruct (answer_cases repr exception_text (post (prompt text))
                solve_wording_marked) as [M|[result [ps [E [P _]]]]];
      [exact M|].
    rewrite (N _ E) in P. discriminate. }
  rewrite M. cbn [negb].
  destruct (NlpSolver.local_analysis _ text) as [events outcome].
  reflexivity.
Qed.

Lemma reply_without_parts_falls_back_witness :
  NlpSolver.answer_text_question latin1_only
    (remote_env no_repr no_text None (py "a-real-key") (fun _ => Timeout))
    pens_question
  = ([NlpSolver.Printed NlpSolver.trying_gemini_message;
      NlpSolver.GeminiCalled pens_question;
      NlpSolver.Printed
        (NlpSolver.gemini_failed_message
           (solve_exchange no_repr no_text (fun _ => Timeout)
              pens_question))]
     ++ NlpSolver.trace
          (NlpSolver.local_analysis
             (remote_env no_repr no_text None (py "a-real-key")
                (fun _ => Timeout))
             pens_question),
     NlpSolver.result
       (NlpSolver.local_analysis
          (remote_env no_repr no_text None (py "a-real-key")
             (fun _ => Timeout))
          pens_question)).
Proof.
  apply (@reply_without_parts_falls_back latin1_only no_repr no_text None
           (py "a-real-key") (fun _ => Timeout) pens_question);
    [reflexivity|discriminate].
Defined.

End OcrCallsFacts.

(** * One round of the main loop *)

Module MainFacts.

Import PyStr Py Classifier Main.

Local Open Scope N_scope.

(** Case analysis on the tests of a round. *)
Ltac split_round H :=
  repeat match type of H with
         | context [if ?b then _ else _] => destruct b eqn:?
         | context [match determine_problem_type ?u ?t ?i with _ => _ end] =>
             destruct (determine_problem_type u t i) eqn:?
         | context [match ?f ?t with Returns _ => _ | Raises _ => _ end] =>
             destruct (f t) eqn:?
         end.

Section WithCollaborators.

Variable ucd : UnicodeData.
Variables Image MathAnswer VisualAnswer : Type.
Variable extract_text_from_image : Image -> str.
Variable solve_equation : str -> MathAnswer.
Variable answer_text_question : str -> Result str.
Variable solve_visual_puzzle : Image -> VisualAnswer.

Local Abbreviation this_round :=
  (round ucd extract_text_from_image solve_equation answer_text_question
     solve_visual_puzzle).

(** X20.  What a round calls and what it ends with.  At most one solver
    is called; the math and the text solver are called only with a text
    that is not blank, and the text solver only when the model is loaded
    (so the remote backend it could ask is out of reach without a
    model); the round raises only what the text solver raises; and the
    branch of line 264 is never taken. *)
Theorem round_cases (nlp_is_none : bool) (img : Image) (typed : str) :
  (filter (@is_solver_call Image) (fst (this_round nlp_is_none img typed))
   = []
   /\ is_blank (extract_text_from_image img) = true
   /\ snd (this_round nlp_is_none img typed) = Returns None)
  \/ (filter (@is_solver_call Image)
        (fst (this_round nlp_is_none img typed)) = []
      /\ is_blank (extract_text_from_image img) = false
      /\ nlp_is_none = true
      /\ snd (this_round nlp_is_none img typed)
         = Returns (Some (OfText nlp_missing_message)))
  \/ (filter (@is_solver_call Image)
        (fst (this_round nlp_is_none img typed))
      = [MathCalled (extract_text_from_image img)]
      /\ is_blank (extract_text_from_image img) = false
      /\ snd (this_round nlp_is_none img typed)
         = Returns
             (Some (OfMath (solve_equation (extract_text_from_image img)))))
  \/ (filter (@is_solver_call Image)
        (fst (this_round nlp_is_none img typed))
      = [TextCalled (extract_text_from_image img)]
      /\ is_blank (extract_text_from_image img) = false
      /\ nlp_is_none = false
      /\ snd (this_round nlp_is_none img typed)
         = match answer_text_question (extract_text_from_image img) with
           | Returns s => Returns (Some (OfText s))
           | Raises e => Raises e
           end)
  \/ (filter (@is_solver_call Image)
        (fst (this_round nlp_is_none img typed))
      = [VisualCalled img]
      /\ snd (this_round nlp_is_none img typed)
         = Returns (Some (OfVisual (solve_visual_puzzle img)))).
Proof.
  unfold round, recognise.
  rewrite ClassifierFacts.determine_problem_type_unfold.
  match goal with
  | |- context [type_name ?t] => generalize t
  end.
  intros t. unfold override, dispatch.
  destruct (eqb (lower ucd typed) (py "m"));
    [|destruct (eqb (lower ucd typed) (py "t"));
      [|destruct (eqb (lower ucd typed) (py "v")); [|destruct t]]];
    cbn [type_name];
    repeat match goal with
           | |- context [eqb (py ?a) (py ?b)] =>
               change (eqb (py a) (py b)) with
                 (ltac:(let v := eval vm_compute in (eqb (py a) (py b)) in
                        exact v))
           end;
    cbv iota;
    destruct (is_blank (extract_text_from_image img)) eqn:B;
    try destruct nlp_is_none;
    destruct (truthy (extract_text_from_image img));
    cbn [fst snd app filter is_solver_call];
    tauto.
Qed.
Lemma blank_is_visual (ocr_text : str) (img : Image) :
  is_blank ocr_text = true ->
  determine_problem_type ucd ocr_text img = Returns Visual.
Proof.
  unfold is_blank, determine_problem_type. now intros ->.
Qed.

(** X21.  When no text was recognised, or white space only, the round
    goes to the visual solver, unless the user asks for the math or the
    text solver: then no solver is called and there is no solution. *)
Theorem blank_text_round (nlp_is_none : bool) (img : Image) (typed : str) :
  is_blank (extract_text_from_image img) = true ->
  (mem (lower ucd typed) [py "m"; py "t"] = true ->
   existsb (@is_solver_call Image)
     (fst (this_round nlp_is_none img typed)) = false
   /\ snd (this_round nlp_is_none img typed) = Returns None)
  /\ (mem (lower ucd typed) [py "m"; py "t"] = false ->
      In (VisualCalled img) (fst (this_round nlp_is_none img typed))
      /\ snd (this_round nlp_is_none img typed)
         = Returns (Some (OfVisual (solve_visual_puzzle img)))).
Proof.
  intros B. unfold round, recognise.
  rewrite (blank_is_visual _ img B). unfold override, dispatch, mem.
  cbn [existsb]. rewrite B.
  destruct (eqb (lower ucd typed) (py "m")) eqn:M;
    [|destruct (eqb (lower ucd typed) (py "t")) eqn:T].
  - split; [intros _|discriminate].
    destruct (truthy (extract_text_from_image img)); split; reflexivity.
  - split; [intros _|discriminate].
    destruct (truthy (extract_text_from_image img)); split; reflexivity.
  - split; [discriminate|intros _].
    assert (V : (if eqb (lower ucd typed) (py "v")
                 then py "visual" else type_name Visual) = py "visual")
      by now destruct (eqb (lower ucd typed) (py "v")).
    rewrite V. cbn [fst snd]. split; [|reflexivity].
    destruct (truthy (extract_text_from_image img)); cbn [app In];
      do 8 right; now left.
Qed.

End WithCollaborators.

Lemma blank_text_round_witness :
  (mem (lower latin1_only (py "T")) [py "m"; py "t"] = true ->
   existsb (@is_solver_call unit)
     (fst (round latin1_only (fun _ : unit => py "  ") (fun s => s)
             (fun s => Returns s) (fun _ => tt) false tt (py "T")))
   = false
   /\ snd (round latin1_only (fun _ : unit => py "  ") (fun s => s)
             (fun s => Returns s) (fun _ => tt) false tt (py "T"))
      = Returns None)
  /\ (mem (lower latin1_only (py "T")) [py "m"; py "t"] = false ->
      In (VisualCalled tt)
        (fst (round latin1_only (fun _ : unit => py "  ") (fun s => s)
                (fun s => Returns s) (fun _ => tt) false tt (py "T")))
      /\ snd (round latin1_only (fun _ : unit => py "  ") (fun s => s)
                (fun s => Returns s) (fun _ => tt) false tt (py "T"))
         = Returns (Some (OfVisual (tt)))).
Proof.
  apply (@blank_text_round latin1_only unit str unit
           (fun _ : unit => py "  ") (fun s => s) (fun s => Returns s)
           (fun _ => tt) false tt (py "T")).
  reflexivity.
Defined.

Section WithOcr.

Import PyJson GeminiReply OcrCalls.

Variable ucd : UnicodeData.
Variable upper_ext : char -> str.
Variable repr : Value -> str.
Variable exception_text : Exn -> str.
Variable Image : Type.
Variable format_of : Image -> option str.
Variable send : Image -> str -> str -> Exchange.
Variable API_KEY : str.

(** X22.  The main script takes the branch of line 219 (no text, or an
    error) only when the key is set and the service answered with a
    reply of the expected shape whose first text is empty or white
    space.  A failure of the recognition never takes it: its message is
    not empty and is shown as the text of the image. *)
Theorem no_text_branch_is_blank_reply (img : Image) :
  In (Printed no_text_message)
    (fst (recognise
            (fun image_obj =>
               snd (extract_text_from_image ucd upper_ext repr
                      exception_text format_of send API_KEY image_obj))
            img)) ->
  key_is_missing API_KEY = false
  /\ exists result p ps t,
       send img (snd (choose_format upper_ext (format_of img)))
         (mime_type ucd (snd (choose_format upper_ext (format_of img))))
       = Replied result
       /\ parts_of result = Some (p :: ps)
       /\ field (py "text") p = Some (Str t)
       /\ strip t = [].
Proof.
  unfold recognise. cbn [fst app In]. intros [I|[I|I]].
  { discriminate I. }
  { discriminate I. }
  destruct (PyStr.truthy
              (snd (extract_text_from_image ucd upper_ext repr
                      exception_text format_of send API_KEY img))) eqn:T;
    cbn [In] in I; destruct I as [I|[]].
  - discriminate I.
  - clear I. unfold extract_text_from_image in T.
    destruct (key_is_missing API_KEY); [discriminate|].
    split; [reflexivity|].
    destruct (choose_format upper_ext (format_of img)) as [printed fmt].
    cbn [snd] in *.
    destruct (GeminiReplyFacts.answer_cases repr exception_text
                (send img fmt (mime_type ucd fmt))
                GeminiReplyFacts.ocr_wording_marked)
      as [M|[result [ps [E [P [[p [rest [t [-> [F A]]]]]|[_ N]]]]]]].
    + destruct (answer _ _ _ _); discriminate.
    + exists result, p, rest, t. repeat split; trivial.
      rewrite <- A. now destruct (answer _ _ _ _).
    + destruct (answer _ _ _ _); [now elim N|discriminate].
Qed.

End WithOcr.

Lemma no_text_branch_is_blank_reply_witness :
  OcrCalls.key_is_missing (py "a-real-key") = false
  /\ exists result p ps t,
       GeminiReply.Replied (OcrCalls.text_reply (py "  "))
       = GeminiReply.Replied result
       /\ GeminiReply.parts_of result = Some (p :: ps)
       /\ GeminiReply.field (py "text") p = Some (PyJson.Str t)
       /\ strip t = [].
Proof.
  apply (@no_text_branch_is_blank_reply latin1_only OcrCalls.sample_upper
           OcrCalls.no_repr OcrCalls.no_text unit (fun _ => None)
           (fun _ _ _ => GeminiReply.Replied (OcrCalls.text_reply (py "  ")))
           (py "a-real-key") tt).
  vm_compute. right. right. left. reflexivity.
Defined.

End MainFacts.

(** * The local analysis *)

Module LocalAnalysisFacts.

Import PyStr Py LocalAnalysis.

Local Open Scope N_scope.

Lemma startswith_prefix (s prefix : str) :
  startswith s prefix = true <-> exists rest, s = prefix ++ rest.
Proof.
  revert s. induction prefix as [|p prefix IH]; intros s.
  - split; [intros _; now exists s|reflexivity].
  - destruct s as [|c s]; cbn.
    + split; [discriminate|]. intros [rest E]. discriminate.
    + rewrite andb_true_iff, N.eqb_eq, IH. split.
      * intros [-> [rest ->]]. now exists rest.
      * intros [rest [= -> ->]]. split; [reflexivity|now exists rest].
Qed.

Lemma contains_infix (s sub : str) :
  contains s sub = true <-> exists before after, s = before ++ sub ++ after.
Proof.
  induction s as [|c s IH]; cbn [contains]; rewrite orb_true_iff.
  - split.
    + intros [H|H]; [|discriminate]. apply startswith_prefix in H.
      destruct H as [rest E]. now exists [], rest.
    + intros [[|b before] [after E]].
      * left. apply startswith_prefix. now exists after.
      * discriminate.
  - rewrite IH, startswith_prefix. split.
    + intros [[rest E]|[before [after E]]].
      * now exists [], rest.
      * exists (c :: before), after. now rewrite E.
    + intros [[|b before] [after E]].
      * left. now exists after.
      * right. injection E as -> ->. now exists before, after.
Qed.

Section WithModel.

Variable ucd : UnicodeData.

Lemma lower_from_latin1 (before sub rest : str) :
  forallb is_latin1 sub = true ->
  lower_from ucd before (sub ++ rest)
  = map latin1_lower sub ++ lower_from ucd (before ++ sub) rest.
Proof.
  revert before. induction sub as [|c sub IH]; intros before.
  - intros _. cbn. now rewrite app_nil_r.
  - cbn [forallb]. intros H. apply andb_prop in H. destruct H as [L H].
    cbn [app lower_from map]. unfold lower_char at 1. rewrite L.
    rewrite (IH _ H), <- app_assoc. reflexivity.
Qed.

(** A Latin-1 word of the text is found in lower case in the lower-cased
    text. *)
Lemma contains_lower (text sub : str) :
  forallb is_latin1 sub = true ->
  contains text sub = true ->
  contains (lower ucd text) (map latin1_lower sub) = true.
Proof.
  intros L C. apply contains_infix in C. destruct C as [a [b ->]].
  apply contains_infix. unfold lower. generalize (@nil char).
  induction a as [|c a IH]; intros before.
  - exists [], (lower_from ucd (before ++ sub) b).
    cbn [app]. now apply lower_from_latin1.
  - cbn [app lower_from].
    destruct (IH (before ++ [c])) as [x [y E]]. rewrite E.
    exists (lower_char ucd before c (a ++ sub ++ b) ++ x), y.
    now rewrite <- app_assoc.
Qed.

(** X24.  In the test of line 134 the search for the capitalised name in
    the text adds nothing to the search for the name in the lower-cased
    text: the rule asks for the two words in the lower-cased text, and
    nothing else. *)
Theorem capitalised_name_is_redundant (text : str) :
  asks_for_painter text (lower ucd text)
  = contains (lower ucd text) (py "painted")
    && contains (lower ucd text) (py "mona lisa").
Proof.
  unfold asks_for_painter. f_equal.
  destruct (contains (lower ucd text) (py "mona lisa")) eqn:L; [reflexivity|].
  destruct (contains text (py "Mona Lisa")) eqn:C; [|reflexivity].
  apply (contains_lower text (py "Mona Lisa") eq_refl) in C.
  change (map latin1_lower (py "Mona Lisa")) with (py "mona lisa") in C.
  congruence.
Qed.

End WithModel.

(** The character U+9996 of the answers on capitals. *)
Definition has_capital_sign (s : str) : bool := existsb (N.eqb 39318) s.

Lemma capital_sentence (x y m : str) :
  has_capital_sign m = false -> x ++ py " 的首都是 " ++ y <> m.
Proof.
  intros H E. subst m. unfold has_capital_sign in H.
  rewrite !existsb_app in H.
  change (existsb (N.eqb 39318) (py " 的首都是 ")) with true in H.
  rewrite orb_true_r in H. discriminate.
Qed.

Lemma painter_is_known :
  lookup (py "painter_of_mona_lisa") knowledge_base
  = Some (py "Leonardo da Vinci").
Proof. vm_compute. reflexivity. Qed.

Lemma symbol_is_known :
  lookup (py "chemical_symbol_for_water") knowledge_base = Some (py "H2O").
Proof. vm_compute. reflexivity. Qed.

Lemma president_is_known :
  lookup (py "president_of_the_united_states") knowledge_base
  = Some (py "Joe Biden").
Proof. vm_compute. reflexivity. Qed.

Section WithPipeline.

Variable ucd : UnicodeData.
Variable title_ext : char -> str.
Variable repr_list : list str -> str.
Variable nlp : str -> Result Doc.

Local Abbreviation answer := (local_answer ucd title_ext repr_list nlp).

Lemma capital_answer_is_known (doc : Doc) (lower_text m : str) :
  In m [unknown_painter_message; unknown_symbol_message;
        unknown_president_message] ->
  capital_answer ucd title_ext doc lower_text <> m.
Proof.
  intros I.
  assert (S : has_capital_sign m = false)
    by (destruct I as [<-|[<-|[<-|[]]]]; reflexivity).
  assert (F : fallback_capital_answer ucd title_ext lower_text <> m).
  { unfold fallback_capital_answer.
    destruct (truthy _).
    - destruct (lookup _ knowledge_base).
      + now apply capital_sentence.
      + destruct I as [<-|[<-|[<-|[]]]]; discriminate.
    - destruct I as [<-|[<-|[<-|[]]]]; discriminate. }
  unfold capital_answer.
  destruct (first_gpe (ents doc)) as [country_name|]; [|exact F].
  destruct (truthy country_name); [|exact F].
  destruct (lookup _ knowledge_base).
  - now apply capital_sentence.
  - destruct I as [<-|[<-|[<-|[]]]]; discriminate.
Qed.

(** X23.  The three answers of lines 138, 145 and 152 (the painter, the
    symbol, the president is not known) are never given, whatever the
    text and whatever the pipeline finds in it or raises on it: the
    entries they stand in for are in the knowledge base, and no other
    answer reads like them. *)
Theorem unknown_answers_are_never_given (text : str) :
  ~ In (answer text)
      [Returns unknown_painter_message; Returns unknown_symbol_message;
       Returns unknown_president_message].
Proof.
  assert (K : forall m,
             In m [unknown_painter_message; unknown_symbol_message;
                   unknown_president_message] ->
             answer text <> Returns m).
  { intros m I. unfold local_answer.
    destruct (nlp text) as [doc|e]; [|discriminate]. unfold analyse.
    destruct (tokens doc) as [|first rest]; [discriminate|].
    cbv zeta.
    rewrite painter_is_known, symbol_is_known, president_is_known.
    repeat match goal with
           | |- (if ?b then _ else _) <> _ => destruct b
           end.
    - intros [= E]. now apply (capital_answer_is_known _ _ I) in E.
    - destruct I as [<-|[<-|[<-|[]]]]; discriminate.
    - destruct I as [<-|[<-|[<-|[]]]]; discriminate.
    - destruct I as [<-|[<-|[<-|[]]]]; discriminate.
    - destruct I as [<-|[<-|[<-|[]]]]; discriminate. }
  cbn [In]. intros [E|[E|[E|[]]]]; symmetry in E; revert E; apply K.
  - now left.
  - right. now left.
  - right. right. now left.
Qed.

End WithPipeline.

End LocalAnalysisFacts.
